(** * The Game of Hog: a shallow embedding of [hog.py] and its properties

    Python integers are [Z]; [//] and [%] are [Z.div] and [Z.modulo], which
    round towards minus infinity exactly as Python does.  Code that draws
    dice or may raise runs in a state-and-exception monad over an abstract
    world [W]: the state survives a raised exception, as it does in
    Python. *)

From Stdlib Require Import ZArith QArith List Bool Lia Lqa String.
Import ListNotations.
Local Open Scope Z_scope.

(** ** Python values, exceptions and results *)

(** The values a caller may pass where the code expects an [int].
    [type(v) == int] holds for [PInt] only: a [bool] is not of type [int]. *)
Inductive pyval : Type :=
| PInt (z : Z)
| PBool (b : bool)
| PFloat (q : Q)
| PStr (s : string)
| PNone.

Definition type_is_int (v : pyval) : bool :=
  match v with PInt _ => true | _ => false end.

Inductive exn : Type :=
| AssertionError (msg : string)
| ZeroDivisionError.

(** [OutOfFuel] has no Python counterpart: it is the answer of a bounded
    unrolling of a [while] loop whose bound was too small. *)
Inductive result (A : Type) : Type :=
| Ok (a : A)
| Raise (e : exn)
| OutOfFuel.
Arguments Ok {A} a.
Arguments Raise {A} e.
Arguments OutOfFuel {A}.

Definition is_assertion_error {A : Type} (r : result A) : bool :=
  match r with Raise (AssertionError _) => true | _ => false end.

(** The two dice of the [dice] module, compared with [is] in the source. *)
Inductive die : Type := four_sided | six_sided.

Definition is_four_sided (d : die) : bool :=
  match d with four_sided => true | six_sided => false end.

Definition GOAL_SCORE : Z := 100.
Definition BASELINE_NUM_ROLLS : Z := 5.
Definition BACON_MARGIN : Z := 8.

(** Module-level [four_sided_max] and [six_sided_max], lines 278-279. *)
Record globals : Type := Globals { four_sided_max : Z; six_sided_max : Z }.

(** ** Pure helpers *)

Definition sum_list (l : list Z) : Z := fold_right Z.add 0 l.

(** Python's [max(a, b)]: the first argument unless the second is larger. *)
Definition py_max (a b : Q) : Q := if Qle_bool b a then a else b.

(** ** Expressions that may raise, with short-circuit [and] *)

Definition floordiv (a b : Z) : result Z :=
  if b =? 0 then Raise ZeroDivisionError else Ok (a / b).

Definition pymod (a b : Z) : result Z :=
  if b =? 0 then Raise ZeroDivisionError else Ok (a mod b).

Definition eq_int (x : result Z) (c : Z) : result bool :=
  match x with
  | Ok v => Ok (v =? c)
  | Raise e => Raise e
  | OutOfFuel => OutOfFuel
  end.

(** [x and y] in a condition: [y] is evaluated only when [x] is true. *)
Definition and_then (x y : result bool) : result bool :=
  match x with
  | Ok true => y
  | other => other
  end.

Definition if_then {A : Type} (c : result bool) (t e : result A) : result A :=
  match c with
  | Ok true => t
  | Ok false => e
  | Raise x => Raise x
  | OutOfFuel => OutOfFuel
  end.

(** ** The monad *)

Section Monad.

Context {W : Type}.

(** A zero-argument callable returning an integer outcome. *)
Definition dice : Type := W -> Z * W.

Definition M (A : Type) : Type := W -> result A * W.

Definition ret {A : Type} (a : A) : M A := fun w => (Ok a, w).

Definition raise {A : Type} (e : exn) : M A := fun w => (Raise e, w).

Definition out_of_fuel {A : Type} : M A := fun w => (OutOfFuel, w).

Definition bind {A B : Type} (c : M A) (k : A -> M B) : M B :=
  fun w =>
    match c w with
    | (Ok a, w') => k a w'
    | (Raise e, w') => (Raise e, w')
    | (OutOfFuel, w') => (OutOfFuel, w')
    end.

Definition lift {A : Type} (r : result A) : M A := fun w => (r, w).

Definition draw (d : dice) : M Z := fun w => let (x, w') := d w in (Ok x, w').

Definition assert (c : bool) (msg : string) : M unit :=
  if c then ret tt else raise (AssertionError msg).

End Monad.

Arguments dice W : clear implicits.
Arguments M W A : clear implicits.

Notation "x <- c ;; k" := (bind c (fun x => k))
  (at level 61, c at next level, right associativity).
Notation "c ;;; k" := (bind c (fun _ => k))
  (at level 61, right associativity).

Section Program.

Context {W : Type}.

(** The callables behind [four_sided] and [six_sided] of the [dice]
    module, which is not part of the sources. *)
Variable throw : die -> dice W.

(** A strategy: (own score, opponent's score) to a number of dice.  It may
    draw dice and may raise. *)
Definition strategy : Type := Z -> Z -> M W Z.

Definition pure_strategy (f : Z -> Z -> Z) : strategy :=
  fun score opponent_score => ret (f score opponent_score).

(** ** Phase 1: simulator *)

(** The [while num_rolls > 0] loop of [roll_dice]; [n] is the number of
    iterations left. *)
Fixpoint roll_loop (d : dice W) (n : nat) (total : Z) (pig_out : bool)
  : M W (Z * bool) :=
  match n with
  | O => ret (total, pig_out)
  | S n' =>
      outcome <- draw d ;;
      let pig_out := if outcome =? 1 then true else pig_out in
      roll_loop d n' (total + outcome) pig_out
  end.

Definition roll_dice (num_rolls : pyval) (d : dice W) : M W Z :=
  assert (type_is_int num_rolls) "num_rolls must be an integer." ;;;
  match num_rolls with
  | PInt num_rolls =>
      assert (0 <? num_rolls) "Must roll at least once." ;;;
      r <- roll_loop d (Z.to_nat num_rolls) 0 false ;;
      let '(total, pig_out) := r in
      ret (if pig_out then 1 else total)
  | _ => raise (AssertionError "num_rolls must be an integer.")
  end.

Definition take_turn (num_rolls : pyval) (opponent_score : Z) (d : dice W)
  : M W Z :=
  assert (type_is_int num_rolls) "num_rolls must be an integer." ;;;
  match num_rolls with
  | PInt n =>
      assert (0 <=? n) "Cannot roll a negative number of dice." ;;;
      assert (n <=? 10) "Cannot roll more than 10 dice." ;;;
      assert (opponent_score <? 100) "The game should be over." ;;;
      if n =? 0 then
        ret (1 + Z.max (opponent_score / 10) (opponent_score mod 10))
      else roll_dice num_rolls d
  | _ => raise (AssertionError "num_rolls must be an integer.")
  end.

Definition select_dice (score opponent_score : Z) : die :=
  if (score + opponent_score) mod 7 =? 0 then four_sided else six_sided.

Definition other (who : Z) : Z := 1 - who.

(** Lines 93-99 of [play]: one turn of the player about to move, up to and
    including the swine swap.  The result is the pair
    [(score, opponent_score)] as the loop holds it before line 103. *)
Definition play_turn (strategy0 : strategy) (score opponent_score : Z)
  : M W (Z * Z) :=
  num_dice <- strategy0 score opponent_score ;;
  let type_dice := select_dice score opponent_score in
  gained <- take_turn (PInt num_dice) opponent_score (throw type_dice) ;;
  let score := score + gained in
  if (opponent_score - score =? score) || (score - opponent_score =? opponent_score)
  then ret (opponent_score, score)
  else ret (score, opponent_score).

(** The [while] loop of [play], lines 92-105, unrolled at most [fuel]
    times, followed by lines 108-111. *)
Fixpoint play_loop (fuel : nat) (strategy0 strategy1 : strategy)
  (who score opponent_score goal : Z) : M W (Z * Z) :=
  match fuel with
  | O => out_of_fuel
  | S fuel' =>
      if (score <? goal) && (opponent_score <? goal) then
        r <- play_turn strategy0 score opponent_score ;;
        let '(score, opponent_score) := r in
        let '(score, opponent_score) := (opponent_score, score) in
        play_loop fuel' strategy1 strategy0 (other who) score opponent_score goal
      else
        ret (if who =? 1 then (opponent_score, score)
             else (score, opponent_score))
  end.

Definition play (fuel : nat) (strategy0 strategy1 : strategy) (goal : Z)
  : M W (Z * Z) :=
  play_loop fuel strategy0 strategy1 0 0 0 goal.

(** ** Phase 2: strategies and experiments *)

Definition always_roll (n : Z) : Z -> Z -> Z :=
  fun score opponent_score => n.

(** The loop of [average]: [n] iterations left. *)
Fixpoint average_loop {A : Type} (fn : A -> M W Z) (args : A) (n : nat)
  (count total : Z) : M W (Z * Z) :=
  match n with
  | O => ret (count, total)
  | S n' =>
      x <- fn args ;;
      average_loop fn args n' (count + 1) (total + x)
  end.

(** [total / count] is Python's true division of two ints: the double
    nearest to the quotient, or [OverflowError] when the quotient is
    beyond the range of a double.  The model keeps the exact rational.
    The two agree on every comparison of two averages over 1000 samples
    whose totals are below 2^52 (the quotients are then more than one
    double apart, and rounding is monotone), and on every comparison with
    an integer of absolute value at most 2^53 (such an integer is a
    double).  Theorems about the value of an average state the bound they
    need as a hypothesis. *)
Definition make_averaged {A : Type} (fn : A -> M W Z) (num_samples : Z)
  : A -> M W Q :=
  fun args =>
    r <- average_loop fn args (Z.to_nat num_samples) 0 0 ;;
    let '(count, total) := r in
    if count =? 0 then raise ZeroDivisionError
    else ret (inject_Z total / inject_Z count)%Q.

(** Line 187: [roll_average = make_averaged(roll_dice)], called with a
    count and a dice. *)
Definition roll_average : pyval * dice W -> M W Q :=
  make_averaged (fun a : pyval * dice W => roll_dice (fst a) (snd a)) 1000.

(** The loop of [max_scoring_num_rolls]: [n] iterations left.  Each
    [print] appends the pair (count, average) to [printed]. *)
Fixpoint max_scoring_loop (d : dice W) (n : nat) (count : Z) (best_avg : Q)
  (best_num : Z) (printed : list (Z * Q)) : M W (Z * list (Z * Q)) :=
  match n with
  | O => ret (best_num, printed)
  | S n' =>
      curr <- roll_average (PInt count, d) ;;
      let printed := printed ++ [(count, curr)] in
      let best_avg := py_max best_avg curr in
      let best_num := if Qeq_bool curr best_avg then count else best_num in
      max_scoring_loop d n' (count + 1) best_avg best_num printed
  end.

(** Returns the chosen count together with the lines printed. *)
Definition max_scoring_num_rolls (d : dice W) : M W (Z * list (Z * Q)) :=
  max_scoring_loop d (Z.to_nat (10 - 1 + 1)) 1 0%Q 1 [].

Definition winner (fuel : nat) (strategy0 strategy1 : strategy) : M W Z :=
  r <- play fuel strategy0 strategy1 GOAL_SCORE ;;
  let '(score0, score1) := r in
  if score1 <? score0 then ret 0 else ret 1.

(** [average_win_rate]: [make_averaged(winner)] with the default 1000
    samples, once with [strategy] as player 0 and once as player 1.  The
    quotients are exact rationals, as in [make_averaged]. *)
Definition average_win_rate (fuel : nat) (strategy0 baseline : strategy)
  : M W Q :=
  lost <- make_averaged
            (fun a : strategy * strategy => winner fuel (fst a) (snd a))
            1000 (strategy0, baseline) ;;
  let win_rate_as_player_0 := (1 - lost)%Q in
  win_rate_as_player_1 <-
    make_averaged (fun a : strategy * strategy => winner fuel (fst a) (snd a))
      1000 (baseline, strategy0) ;;
  ret ((win_rate_as_player_0 + win_rate_as_player_1) / 2)%Q.

Definition bacon_strategy (score opponent_score : Z) : Z :=
  if BACON_MARGIN <=? Z.max (opponent_score / 10) (opponent_score mod 10) + 1
  then 0
  else BASELINE_NUM_ROLLS.

Definition swap_strategy (score opponent_score : Z) : Z :=
  let swap := score + (1 + Z.max (opponent_score / 10) (opponent_score mod 10)) in
  if opponent_score - swap =? swap then 0
  else if swap - opponent_score =? opponent_score then BASELINE_NUM_ROLLS
  else bacon_strategy score opponent_score.

(** Lines 278-279, run once when the module is loaded. *)
Definition module_init : M W globals :=
  r4 <- max_scoring_num_rolls (throw four_sided) ;;
  r6 <- max_scoring_num_rolls (throw six_sided) ;;
  ret (Globals (fst r4) (fst r6)).

(** The inner function [repeated_strategy] of [final_strategy]; its free
    variables are passed as arguments.  A chain of [elif]s whose tests all
    fail falls through to the test of line 317. *)
Definition repeated_strategy (score opponent_score : Z) (type_dice : die)
  (best_num_dice : Z) : Z :=
  let difference := opponent_score / 2 - score in
  let fall_through :=
    if GOAL_SCORE <=? score + best_num_dice then 2 else best_num_dice in
  if is_four_sided type_dice then
    if difference <=? 1 then 10
    else if difference <=? 2 then 1
    else if difference <=? 3 then 2
    else if difference <=? 4 then 3
    else if difference <=? 5 then 3
    else fall_through
  else
    if difference <=? 1 then 10
    else if difference <? 4 then 1
    else if difference <=? 8 then 2
    else if difference <=? 12 then 3
    else if difference <=? 17 then 4
    else fall_through.

(** Lines 323-371 of [final_strategy]: the decision, once [roll_dice(5)]
    has been drawn.  Divisions by a variable may raise. *)
Definition final_decision (g : globals) (score opponent_score : Z)
  : result Z :=
  let type_dice := select_dice score opponent_score in
  let roll0 :=
    score + (1 + Z.max (opponent_score / 10) (opponent_score mod 10)) in
  let best_num_dice :=
    if is_four_sided type_dice then four_sided_max g else six_sided_max g in
  let harmful :=
    and_then (and_then (Ok (negb (opponent_score =? 0)))
                       (eq_int (floordiv roll0 opponent_score) 2))
             (eq_int (pymod roll0 opponent_score) 0) in
  if_then
    (and_then (and_then (Ok (roll0 <? opponent_score))
                        (eq_int (floordiv opponent_score roll0) 2))
              (eq_int (pymod opponent_score roll0) 0))
    (Ok 0)
    (if is_four_sided type_dice then
       if_then
         (and_then (and_then (Ok (opponent_score <? roll0))
                             (Ok (roll0 =? 2)))
                   (eq_int (pymod roll0 opponent_score) 0))
         (Ok best_num_dice)
         (if (score <? opponent_score) && (0 <? opponent_score / 2 - score)
          then Ok (repeated_strategy score opponent_score type_dice
                     best_num_dice)
          else if 4 <=? Z.max (opponent_score / 10) (opponent_score mod 10) + 1
          then Ok 0
          else Ok best_num_dice)
     else if (80 <? opponent_score) && (91 <? score) then Ok 0
     else if 100 <=? score + Z.max (opponent_score / 10) (opponent_score mod 10)
     then if_then harmful (Ok best_num_dice) (Ok 0)
     else if is_four_sided (select_dice roll0 opponent_score)
     then if_then harmful (Ok best_num_dice) (Ok 0)
     else if (score <? opponent_score) && (0 <? opponent_score / 2 - score)
     then Ok (repeated_strategy score opponent_score type_dice best_num_dice)
     else if (50 <? opponent_score) && (15 <? score - opponent_score) then Ok 0
     else if GOAL_SCORE <=? score + best_num_dice then Ok 2
     else Ok best_num_dice).

(** [final_strategy] reads the module-level maxima [g]; [roll_dice(5)]
    uses the default six-sided dice. *)
Definition final_strategy (g : globals) : strategy :=
  fun score opponent_score =>
    let diff := opponent_score - score in
    rolled <- roll_dice (PInt 5) (throw six_sided) ;;
    let estimate := opponent_score + rolled in
    lift (final_decision g score opponent_score).

(** ** The game engine as the specification words it

    Section 4.3 of the specification: a state [(score0, score1, active)]
    indexed by player, the end test at the top of each turn, the swap rule
    on the two players' scores, and the pair [(score0, score1)] as the
    result.  It is compared with [play] below. *)
Fixpoint play_by_player (fuel : nat) (strategy0 strategy1 : strategy)
  (score0 score1 active goal : Z) : M W (Z * Z) :=
  match fuel with
  | O => out_of_fuel
  | S fuel' =>
      if (score0 <? goal) && (score1 <? goal) then
        let mine := if active =? 0 then score0 else score1 in
        let theirs := if active =? 0 then score1 else score0 in
        let chooser := if active =? 0 then strategy0 else strategy1 in
        num_rolls <- chooser mine theirs ;;
        value <- take_turn (PInt num_rolls) theirs
                   (throw (select_dice mine theirs)) ;;
        let mine := mine + value in
        let score0 := if active =? 0 then mine else theirs in
        let score1 := if active =? 0 then theirs else mine in
        let doubled := (score1 =? 2 * score0) || (score0 =? 2 * score1) in
        play_by_player fuel' strategy0 strategy1
          (if doubled then score1 else score0)
          (if doubled then score0 else score1)
          (1 - active) goal
      else ret (score0, score1)
  end.

End Program.

(** ** Dice used to run the model *)

(** The outcomes of [n] successive calls of a dice, and the world left. *)
Fixpoint draws {W : Type} (d : dice W) (n : nat) (w : W) : list Z * W :=
  match n with
  | O => ([], w)
  | S n' =>
      let (x, w1) := d w in
      let (xs, w2) := draws d n' w1 in
      (x :: xs, w2)
  end.

(** A dice instrumented with the number of times it has been called. *)
Definition counted {W : Type} (d : dice W) : dice (W * nat) :=
  fun wc => let (x, w') := d (fst wc) in (x, (w', S (snd wc))).

(** The two dice of the [dice] module, each instrumented; they share one
    call counter. *)
Definition counted_throw {W : Type} (throw : die -> dice W)
  : die -> dice (W * nat) :=
  fun k => counted (throw k).

(** Modelled from the spec: [make_test_dice] of the [dice] module, which is
    not part of the sources: a dice that cycles through a fixed sequence of
    outcomes.  The world is the number of calls made so far. *)
Definition make_test_dice (outcomes : list Z) : dice Z :=
  fun calls =>
    (nth (Z.to_nat (calls mod Z.of_nat (List.length outcomes))) outcomes 1,
     calls + 1).

(** The same test dice behind both [four_sided] and [six_sided]. *)
Definition test_throw (outcomes : list Z) : die -> dice Z :=
  fun _ => make_test_dice outcomes.

(** ** Assumptions on the injected capabilities *)

(** A dice source returns an integer of at least 1 at every call. *)
Definition positive_dice {W : Type} (throw : die -> dice W) : Prop :=
  forall (k : die) (w : W), 1 <= fst (throw k w).

(** A strategy returns, in every world, a roll count in [0, 10] for every
    own score [>= 0] and every opponent score in [0, 100). *)
Definition rolls_in_range {W : Type} (s : @strategy W) : Prop :=
  forall (score opponent_score : Z) (w : W),
    0 <= score -> 0 <= opponent_score < 100 ->
    exists n w', s score opponent_score w = (Ok n, w') /\ 0 <= n <= 10.

(** The value a strategy returns does not depend on the world it runs in:
    neither on the dice it may draw nor on anything kept between calls. *)
Definition deterministic {W : Type} (s : @strategy W) : Prop :=
  forall (score opponent_score : Z) (w1 w2 : W),
    fst (s score opponent_score w1) = fst (s score opponent_score w2).

(** ** Reading the table of averages *)

(** The averages [max_scoring_num_rolls] prints, computed on their own:
    [make_averaged(roll_dice)] for [n] successive counts from [count]. *)
Fixpoint average_table {W : Type} (d : dice W) (n : nat) (count : Z)
  : M W (list (Z * Q)) :=
  match n with
  | O => ret []
  | S n' =>
      curr <- roll_average (PInt count, d) ;;
      rest <- average_table d n' (count + 1) ;;
      ret ((count, curr) :: rest)
  end.

(** The updates of [best_avg] and [best_num] along a table of averages. *)
Fixpoint pick (table : list (Z * Q)) (best_avg : Q) (best_num : Z) : Z :=
  match table with
  | [] => best_num
  | (count, curr) :: rest =>
      let best_avg := py_max best_avg curr in
      pick rest best_avg (if Qeq_bool curr best_avg then count else best_num)
  end.

Fixpoint counts_from (n : nat) (count : Z) : list Z :=
  match n with
  | O => []
  | S n' => count :: counts_from n' (count + 1)
  end.

(** The value of every roll of [c] dice that always show [v]. *)
Definition constant_roll (v c : Z) : Z := if 1 =? v then 1 else c * v.

(** Row [n] holds the largest average and is the last row to hold it. *)
Definition last_max_row (table : list (Z * Q)) (n : Z) : Prop :=
  exists pre an post,
    table = pre ++ (n, an) :: post /\
    (forall c a, In (c, a) pre -> (a <= an)%Q) /\
    (forall c a, In (c, a) post -> (a < an)%Q).

(** Row [n] holds the largest average and is the first row to hold it. *)
Definition first_max_row (table : list (Z * Q)) (n : Z) : Prop :=
  exists pre an post,
    table = pre ++ (n, an) :: post /\
    (forall c a, In (c, a) pre -> (a < an)%Q) /\
    (forall c a, In (c, a) post -> (a <= an)%Q).

(** One score is exactly double the other. *)
Definition doubled (score opponent_score : Z) : Prop :=
  opponent_score = 2 * score \/ score = 2 * opponent_score.

(** * Properties *)

Ltac unfold_monad :=
  unfold bind, ret, raise, lift, draw, assert, out_of_fuel in *.

(** ** Rolling dice *)

Section RollDice.

Context {W : Type}.

Lemma roll_loop_draws (d : dice W) (n : nat) :
  forall (total : Z) (pig_out : bool) (w : W),
    roll_loop d n total pig_out w =
    (Ok (total + sum_list (fst (draws d n w)),
         pig_out || existsb (Z.eqb 1) (fst (draws d n w))),
     snd (draws d n w)).
Proof.
  induction n as [|n IH]; intros total pig_out w; simpl.
  - unfold ret. now rewrite Z.add_0_r, orb_false_r.
  - unfold bind, draw. destruct (d w) as [x w1]. rewrite IH.
    destruct (draws d n w1) as [xs w2].
    cbn [fst snd existsb sum_list fold_right].
    rewrite Z.add_assoc, (Z.eqb_sym 1 x).
    destruct (x =? 1), pig_out; reflexivity.
Qed.

Lemma roll_dice_draws (d : dice W) (n : Z) (w : W) :
  1 <= n ->
  roll_dice (PInt n) d w =
  (Ok (if existsb (Z.eqb 1) (fst (draws d (Z.to_nat n) w)) then 1
       else sum_list (fst (draws d (Z.to_nat n) w))),
   snd (draws d (Z.to_nat n) w)).
Proof.
  intros Hn. unfold roll_dice. simpl. unfold bind at 1. simpl.
  assert (E : (0 <? n) = true) by (apply Z.ltb_lt; lia).
  rewrite E. simpl. unfold bind. simpl. rewrite roll_loop_draws. reflexivity.
Qed.

Lemma draws_length (d : dice W) (n : nat) :
  forall w, List.length (fst (draws d n w)) = n.
Proof.
  induction n as [|n IH]; intros w; simpl; [reflexivity|].
  destruct (d w) as [x w1]. specialize (IH w1).
  destruct (draws d n w1) as [xs w2]; simpl in *. now rewrite IH.
Qed.

Lemma draws_counted (d : dice W) (n : nat) :
  forall (w : W) (c : nat),
    draws (counted d) n (w, c) =
    (fst (draws d n w), (snd (draws d n w), (c + n)%nat)).
Proof.
  induction n as [|n IH]; intros w c; simpl.
  - now rewrite Nat.add_0_r.
  - unfold counted at 1. simpl. destruct (d w) as [x w1]. rewrite IH.
    destruct (draws d n w1) as [xs w2]; simpl.
    now rewrite Nat.add_succ_r.
Qed.

Lemma sum_list_lower (l : list Z) :
  (forall x, In x l -> 1 <= x) -> Z.of_nat (List.length l) <= sum_list l.
Proof.
  induction l as [|a l IH]; intros H; simpl; [lia|].
  assert (1 <= a) by (apply H; now left).
  assert (Z.of_nat (List.length l) <= sum_list l)
    by (apply IH; intros x Hx; apply H; now right).
  unfold sum_list in *. lia.
Qed.

Lemma draws_positive (d : dice W) (n : nat) :
  (forall w, 1 <= fst (d w)) ->
  forall w x, In x (fst (draws d n w)) -> 1 <= x.
Proof.
  intros Hd. induction n as [|n IH]; intros w x; simpl; [tauto|].
  pose proof (Hd w) as H1. destruct (d w) as [y w1]. specialize (IH w1 x).
  destruct (draws d n w1) as [xs w2]; simpl in *.
  intros [<-|Hx]; auto.
Qed.

(** With outcomes of at least 1, a roll of at least one die scores at
    least 1. *)
Lemma roll_dice_positive (d : dice W) (n : Z) (w : W) :
  (forall w, 1 <= fst (d w)) -> 1 <= n ->
  exists v w', roll_dice (PInt n) d w = (Ok v, w') /\ 1 <= v.
Proof.
  intros Hd Hn. rewrite roll_dice_draws by assumption.
  eexists; eexists; split; [reflexivity|].
  destruct (existsb _ _); [lia|].
  pose proof (sum_list_lower (fst (draws d (Z.to_nat n) w))
                (draws_positive d (Z.to_nat n) Hd w)) as H.
  rewrite draws_length in H. lia.
Qed.

End RollDice.

Section Turns.

Context {W : Type}.

(** C3.  For every integer [num_rolls >= 1] and every dice, [roll_dice]
    calls the dice exactly [num_rolls] times (the call counter of the
    instrumented dice advances by [num_rolls], whatever the outcomes), and
    returns 1 if one of these [num_rolls] outcomes is 1 and their sum
    otherwise. *)
Theorem roll_dice_calls_and_value (d : dice W) (num_rolls : Z) (w : W)
  (calls : nat) :
  1 <= num_rolls ->
  let outcomes := fst (draws d (Z.to_nat num_rolls) w) in
  List.length outcomes = Z.to_nat num_rolls /\
  roll_dice (PInt num_rolls) (counted d) (w, calls) =
  (Ok (if existsb (Z.eqb 1) outcomes then 1 else sum_list outcomes),
   (snd (draws d (Z.to_nat num_rolls) w), (calls + Z.to_nat num_rolls)%nat)).
Proof.
  intros Hn outcomes. split; [apply draws_length|].
  rewrite roll_dice_draws by assumption.
  rewrite draws_counted. reflexivity.
Qed.

(** ** Taking a turn *)

(** C4.  For every opponent score in [0, 100), [take_turn] with zero rolls
    returns [1 + max(opponent_score // 10, opponent_score % 10)] and leaves
    the world, call counter of the dice included, as it was; the value is 1
    for an opponent score of 0 and 5 for an opponent score of 24. *)
Theorem take_turn_free_bacon (d : dice W) (opponent_score : Z) (w : W)
  (calls : nat) :
  0 <= opponent_score < 100 ->
  take_turn (PInt 0) opponent_score (counted d) (w, calls) =
    (Ok (1 + Z.max (opponent_score / 10) (opponent_score mod 10)), (w, calls))
  /\ take_turn (PInt 0) 0 (counted d) (w, calls) = (Ok 1, (w, calls))
  /\ take_turn (PInt 0) 24 (counted d) (w, calls) = (Ok 5, (w, calls)).
Proof.
  intros [_ Hhi]. repeat split; try reflexivity.
  unfold take_turn. unfold_monad. simpl.
  assert (E : (opponent_score <? 100) = true) by (apply Z.ltb_lt; lia).
  now rewrite E.
Qed.

Lemma take_turn_rejects (d : dice W) (num_rolls : pyval) (opponent_score : Z)
  (w : W) :
  (forall n, num_rolls = PInt n -> ~ 0 <= n <= 10) \/ 100 <= opponent_score ->
  exists msg,
    take_turn num_rolls opponent_score d w = (Raise (AssertionError msg), w).
Proof.
  intros H. unfold take_turn.
  destruct num_rolls as [n| | | |];
    try (eexists; unfold_monad; simpl; reflexivity).
  unfold_monad. simpl.
  destruct (0 <=? n) eqn:E0; [|eexists; reflexivity].
  destruct (n <=? 10) eqn:E1; [|eexists; reflexivity].
  destruct (opponent_score <? 100) eqn:E2; [|eexists; reflexivity].
  exfalso. apply Z.leb_le in E0, E1. apply Z.ltb_lt in E2.
  destruct H as [H|H]; [apply (H n eq_refl)|]; lia.
Qed.

Lemma take_turn_accepts (d : dice W) (n opponent_score : Z) (w : W) :
  0 <= n <= 10 -> opponent_score < 100 ->
  take_turn (PInt n) opponent_score d w =
  if n =? 0
  then (Ok (1 + Z.max (opponent_score / 10) (opponent_score mod 10)), w)
  else roll_dice (PInt n) d w.
Proof.
  intros Hn Ho. unfold take_turn. unfold_monad. simpl.
  assert (E0 : (0 <=? n) = true) by (apply Z.leb_le; lia).
  assert (E1 : (n <=? 10) = true) by (apply Z.leb_le; lia).
  assert (E2 : (opponent_score <? 100) = true) by (apply Z.ltb_lt; lia).
  rewrite E0, E1, E2. now destruct (n =? 0).
Qed.

(** C7, as amended.  [take_turn] raises an [AssertionError] before any dice
    is drawn whenever [num_rolls] is not an [int] in [0, 10] or
    [opponent_score] is at least 100; and it returns a value whenever
    [num_rolls] is an [int] in [0, 10] and [opponent_score < 100].  No
    assertion inspects the sign of [opponent_score]. *)
Theorem take_turn_contract (d : dice W) (num_rolls : pyval)
  (opponent_score : Z) (w : W) :
  ((forall n, num_rolls = PInt n -> ~ 0 <= n <= 10) \/ 100 <= opponent_score ->
   exists msg,
     take_turn num_rolls opponent_score d w = (Raise (AssertionError msg), w))
  /\
  (forall n, num_rolls = PInt n -> 0 <= n <= 10 -> opponent_score < 100 ->
   exists v w', take_turn num_rolls opponent_score d w = (Ok v, w')).
Proof.
  split; [apply take_turn_rejects|].
  intros n -> Hn Ho. rewrite take_turn_accepts by assumption.
  destruct (n =? 0) eqn:E; [eauto|].
  apply Z.eqb_neq in E. rewrite roll_dice_draws by lia. eauto.
Qed.

End Turns.

(** ** Playing a game *)

Section Game.

Context {W : Type}.
Variable throw : die -> dice W.

Lemma swap_test_doubled (score opponent_score : Z) :
  (opponent_score - score =? score) || (score - opponent_score =? opponent_score)
  = (opponent_score =? 2 * score) || (score =? 2 * opponent_score).
Proof.
  destruct (Z.eqb_spec (opponent_score - score) score),
    (Z.eqb_spec (score - opponent_score) opponent_score),
    (Z.eqb_spec opponent_score (2 * score)),
    (Z.eqb_spec score (2 * opponent_score)); simpl; try reflexivity; lia.
Qed.

Lemma swap_test_reflect (score opponent_score : Z) :
  (opponent_score - score =? score) || (score - opponent_score =? opponent_score)
  = true <-> doubled score opponent_score.
Proof.
  rewrite swap_test_doubled, orb_true_iff, !Z.eqb_eq. reflexivity.
Qed.

(** What one turn computes, read off the two calls it makes. *)
Lemma play_turn_inv (strategy0 : strategy) (score opponent_score : Z)
  (w w' : W) (r : Z * Z) :
  play_turn throw strategy0 score opponent_score w = (Ok r, w') ->
  exists num_dice gained w1,
    strategy0 score opponent_score w = (Ok num_dice, w1) /\
    take_turn (PInt num_dice) opponent_score
      (throw (select_dice score opponent_score)) w1 = (Ok gained, w') /\
    r = if (opponent_score - (score + gained) =? score + gained)
           || (score + gained - opponent_score =? opponent_score)
        then (opponent_score, score + gained)
        else (score + gained, opponent_score).
Proof.
  unfold play_turn, bind. intros H.
  destruct (strategy0 score opponent_score w) as [[num_dice|e|] w1] eqn:Es;
    try discriminate.
  destruct (take_turn (PInt num_dice) opponent_score _ w1)
    as [[gained|e|] w2] eqn:Et; try discriminate.
  exists num_dice, gained, w1.
  destruct (_ || _); unfold ret in H; inversion H; subst; auto.
Qed.

(** C2.  In a turn that completes, the mover's score is first increased by
    the value of the turn; then the two scores are exchanged if one is
    exactly double the other, and left in place otherwise.  The exchange
    is made once: when the doubled scores differ, the result is not the
    pair before the exchange. *)
Theorem play_turn_swaps_once (strategy0 : strategy)
  (score opponent_score : Z) (w w' : W) (r : Z * Z) :
  play_turn throw strategy0 score opponent_score w = (Ok r, w') ->
  exists num_dice gained w1,
    strategy0 score opponent_score w = (Ok num_dice, w1) /\
    take_turn (PInt num_dice) opponent_score
      (throw (select_dice score opponent_score)) w1 = (Ok gained, w') /\
    let scored := score + gained in
    (doubled scored opponent_score ->
       r = (opponent_score, scored) /\
       (scored <> opponent_score -> r <> (scored, opponent_score))) /\
    (~ doubled scored opponent_score -> r = (scored, opponent_score)).
Proof.
  intros H. apply play_turn_inv in H.
  destruct H as (num_dice & gained & w1 & Hs & Ht & Hr).
  exists num_dice, gained, w1. split; [assumption|]. split; [assumption|].
  cbv zeta. split.
  - intros Hd. apply swap_test_reflect in Hd. rewrite Hd in Hr.
    split; [assumption|]. intros Hne. rewrite Hr. congruence.
  - intros Hd. destruct (_ || _) eqn:E; [|assumption].
    apply swap_test_reflect in E. contradiction.
Qed.

(** A turn taken from valid scores completes and adds at least 1 to the
    sum of the two scores. *)
Lemma play_turn_progress (s : strategy) (score opponent_score : Z) (w : W) :
  positive_dice throw -> rolls_in_range s ->
  0 <= score -> 0 <= opponent_score < 100 ->
  exists r w',
    play_turn throw s score opponent_score w = (Ok r, w') /\
    0 <= fst r /\ 0 <= snd r /\
    score + opponent_score + 1 <= fst r + snd r.
Proof.
  intros Hd Hs Hsc Ho.
  destruct (Hs score opponent_score w Hsc Ho) as (n & w1 & En & Hn).
  assert (Ht : exists gained w2,
             take_turn (PInt n) opponent_score
               (throw (select_dice score opponent_score)) w1
             = (Ok gained, w2) /\ 1 <= gained).
  { rewrite take_turn_accepts by lia.
    destruct (n =? 0) eqn:E0.
    - eexists; eexists; split; [reflexivity|].
      assert (0 <= opponent_score / 10) by (apply Z.div_pos; lia). lia.
    - apply Z.eqb_neq in E0. apply roll_dice_positive; [|lia].
      intros w0. apply Hd. }
  destruct Ht as (gained & w2 & Et & Hg).
  unfold play_turn, bind. rewrite En, Et.
  destruct (_ || _); unfold ret; eexists; eexists;
    (split; [reflexivity|]); simpl; lia.
Qed.

(** The loop of [play] ends: from scores summing to [t], more than
    [199 - t] unrollings always suffice, and the answer does not depend on
    how many more are allowed. *)
Lemma play_loop_terminates (n : nat) :
  forall (sA sB : strategy) (who score opponent_score : Z) (w : W),
    positive_dice throw -> rolls_in_range sA -> rolls_in_range sB ->
    0 <= score -> 0 <= opponent_score ->
    198 - (score + opponent_score) < Z.of_nat n ->
    exists r w',
      (forall fuel, (n < fuel)%nat ->
         play_loop throw fuel sA sB who score opponent_score GOAL_SCORE w
         = (Ok r, w')) /\
      (GOAL_SCORE <= fst r \/ GOAL_SCORE <= snd r).
Proof.
  unfold GOAL_SCORE.
  induction n as [|n IH]; intros sA sB who score opp w Hd HA HB Hs Ho Hm;
    destruct ((score <? 100) && (opp <? 100)) eqn:Ec.
  - apply andb_true_iff in Ec. rewrite !Z.ltb_lt in Ec. exfalso; lia.
  - exists (if who =? 1 then (opp, score) else (score, opp)), w. split.
    + intros [|fuel] Hf; [lia|]. simpl. now rewrite Ec.
    + apply andb_false_iff in Ec. rewrite !Z.ltb_ge in Ec.
      destruct (who =? 1); simpl; lia.
  - pose proof Ec as Ec'. apply andb_true_iff in Ec'.
    rewrite !Z.ltb_lt in Ec'.
    destruct (play_turn_progress sA score opp w Hd HA Hs)
      as ([s' o'] & w1 & Et & Hs' & Ho' & Hsum); [lia|]. cbn [fst snd] in *.
    destruct (IH sB sA (other who) o' s' w1 Hd HB HA Ho' Hs')
      as (r & w' & Hrun & Hgoal); [lia|].
    exists r, w'. split; [|assumption].
    intros [|fuel] Hf; [lia|]. simpl. rewrite Ec. unfold bind at 1.
    rewrite Et. apply Hrun. lia.
  - exists (if who =? 1 then (opp, score) else (score, opp)), w. split.
    + intros [|fuel] Hf; [lia|]. simpl. now rewrite Ec.
    + apply andb_false_iff in Ec. rewrite !Z.ltb_ge in Ec.
      destruct (who =? 1); simpl; lia.
Qed.

(** [play] computes what the player-indexed engine of the specification
    computes, turn for turn, whatever the strategies do. *)
Lemma play_loop_by_player (fuel : nat) :
  forall (s0 s1 : strategy) (score0 score1 goal : Z) (w : W),
    play_loop throw fuel s0 s1 0 score0 score1 goal w
    = play_by_player throw fuel s0 s1 score0 score1 0 goal w
    /\
    play_loop throw fuel s1 s0 1 score1 score0 goal w
    = play_by_player throw fuel s0 s1 score0 score1 1 goal w.
Proof.
  induction fuel as [|fuel IH]; intros s0 s1 score0 score1 goal w;
    [split; reflexivity|].
  split; cbn [play_loop play_by_player].
  - destruct ((score0 <? goal) && (score1 <? goal)); [|reflexivity].
    change (0 =? 0) with true. cbv iota.
    unfold play_turn, bind.
    destruct (s0 score0 score1 w) as [[n|e|] w1]; try reflexivity.
    destruct (take_turn (PInt n) score1 _ w1) as [[g|e|] w2];
      try reflexivity.
    rewrite swap_test_doubled.
    change (other 0) with 1. change (1 - 0) with 1.
    destruct (_ || _); unfold ret; apply IH.
  - rewrite (andb_comm (score1 <? goal)).
    destruct ((score0 <? goal) && (score1 <? goal)); [|reflexivity].
    change (1 =? 0) with false. cbv iota.
    unfold play_turn, bind.
    destruct (s1 score1 score0 w) as [[n|e|] w1]; try reflexivity.
    destruct (take_turn (PInt n) score0 _ w1) as [[g|e|] w2];
      try reflexivity.
    rewrite swap_test_doubled, orb_comm.
    change (other 1) with 0. change (1 - 1) with 0.
    destruct (_ || _); unfold ret; apply IH.
Qed.

(** C1.  For strategies that return roll counts in [0, 10] and dice that
    return outcomes of at least 1, [play] returns a pair; at least one of
    its components has reached the goal of 100; and the pair is (player
    0's score, player 1's score): it is the pair the player-indexed engine
    of the specification ends with, whoever took the last turn. *)
Theorem play_final_scores (strategy0 strategy1 : strategy) (w : W) :
  positive_dice throw ->
  rolls_in_range strategy0 -> rolls_in_range strategy1 ->
  exists score0 score1 w',
    (forall fuel, (200 <= fuel)%nat ->
       play throw fuel strategy0 strategy1 GOAL_SCORE w
       = (Ok (score0, score1), w')) /\
    (GOAL_SCORE <= score0 \/ GOAL_SCORE <= score1) /\
    (forall fuel, (200 <= fuel)%nat ->
       play_by_player throw fuel strategy0 strategy1 0 0 0 GOAL_SCORE w
       = (Ok (score0, score1), w')).
Proof.
  intros Hd H0 H1.
  destruct (play_loop_terminates 199 strategy0 strategy1 0 0 0 w Hd H0 H1)
    as ([score0 score1] & w' & Hrun & Hgoal); try lia.
  exists score0, score1, w'. split; [|split].
  - intros fuel Hf. apply Hrun. lia.
  - exact Hgoal.
  - intros fuel Hf.
    rewrite <- (proj1 (play_loop_by_player fuel strategy0 strategy1
                         0 0 GOAL_SCORE w)).
    apply Hrun. lia.
Qed.

(** C6.  With dice that return outcomes of at least 1: every turn taken by
    a strategy with roll counts in [0, 10] completes and raises the sum of
    the two scores by at least 1; and [play] terminates: 200 unrollings of
    its loop always reach the end of the game, with the same answer for
    every larger bound. *)
Theorem play_terminates :
  positive_dice throw ->
  (forall (s : strategy) (score opponent_score : Z) (w : W),
     rolls_in_range s ->
     0 <= score < GOAL_SCORE -> 0 <= opponent_score < GOAL_SCORE ->
     exists r w',
       play_turn throw s score opponent_score w = (Ok r, w') /\
       score + opponent_score + 1 <= fst r + snd r)
  /\
  (forall (strategy0 strategy1 : strategy) (w : W),
     rolls_in_range strategy0 -> rolls_in_range strategy1 ->
     exists r w',
       forall fuel, (200 <= fuel)%nat ->
         play throw fuel strategy0 strategy1 GOAL_SCORE w = (Ok r, w')).
Proof.
  intros Hd. split.
  - unfold GOAL_SCORE. intros s score opp w Hs Hsc Ho.
    destruct (play_turn_progress s score opp w Hd Hs)
      as (r & w' & Et & _ & _ & Hsum); try lia.
    exists r, w'. auto.
  - intros strategy0 strategy1 w H0 H1.
    destruct (play_loop_terminates 199 strategy0 strategy1 0 0 0 w Hd H0 H1)
      as (r & w' & Hrun & _); try lia.
    exists r, w'. intros fuel Hf. apply Hrun. lia.
Qed.

End Game.

(** ** Experiments *)

Section Experiments.

Context {W : Type}.

Lemma average_loop_roll (d : dice W) (c : Z) (n : nat) :
  1 <= c ->
  forall (count total : Z) (w : W),
    exists total' w',
      average_loop (fun a : pyval * dice W => roll_dice (fst a) (snd a))
        (PInt c, d) n count total w
      = (Ok (count + Z.of_nat n, total'), w') /\
      ((forall w0, 1 <= fst (d w0)) -> total + Z.of_nat n <= total').
Proof.
  intros Hc. induction n as [|n IH]; intros count total w.
  - exists total, w. simpl. unfold ret. rewrite !Z.add_0_r. split; [easy|lia].
  - cbn [average_loop]. unfold bind at 1. cbn [fst snd].
    rewrite roll_dice_draws by assumption.
    set (v := if existsb _ _ then 1 else _).
    destruct (IH (count + 1) (total + v) (snd (draws d (Z.to_nat c) w)))
      as (total' & w' & E & Hpos).
    exists total', w'. split.
    + rewrite E. replace (count + 1 + Z.of_nat n) with (count + Z.of_nat (S n))
        by lia. reflexivity.
    + intros Hd. specialize (Hpos Hd).
      destruct (roll_dice_positive d c w Hd Hc) as (v' & w'' & E' & Hv).
      rewrite roll_dice_draws in E' by assumption.
      assert (v' = v) by (subst v; congruence). lia.
Qed.

Lemma roll_average_ok (d : dice W) (c : Z) (w : W) :
  1 <= c ->
  exists a w',
    roll_average (PInt c, d) w = (Ok a, w') /\
    ((forall w0, 1 <= fst (d w0)) -> (0 < a)%Q).
Proof.
  intros Hc. unfold roll_average, make_averaged, bind.
  destruct (average_loop_roll d c (Z.to_nat 1000) Hc 0 0 w)
    as (total & w' & E & Hpos).
  rewrite E. change (0 + Z.of_nat (Z.to_nat 1000) =? 0) with false.
  cbv iota. unfold ret. eexists; eexists; split; [reflexivity|].
  intros Hd. specialize (Hpos Hd).
  change (Z.of_nat (Z.to_nat 1000)) with 1000 in *.
  change (0 + 1000) with 1000.
  apply Qlt_shift_div_l; [reflexivity|].
  rewrite Qmult_0_l. unfold Qlt, inject_Z. simpl. lia.
Qed.

Lemma average_table_ok (d : dice W) (n : nat) :
  forall (count : Z) (w : W),
    1 <= count ->
    exists table w',
      average_table d n count w = (Ok table, w') /\
      map fst table = counts_from n count /\
      ((forall w0, 1 <= fst (d w0)) ->
       forall c a, In (c, a) table -> (0 < a)%Q).
Proof.
  induction n as [|n IH]; intros count w Hc.
  - exists [], w. repeat split. intros _ c a [].
  - destruct (roll_average_ok d count w Hc) as (a0 & w1 & E0 & H0).
    destruct (IH (count + 1) w1) as (rest & w' & Er & Hfst & Hpos); [lia|].
    exists ((count, a0) :: rest), w'. split; [|split].
    + cbn [average_table]. unfold bind. rewrite E0, Er. reflexivity.
    + simpl. now rewrite Hfst.
    + intros Hd c a [[= <- <-]|Hin]; [auto|eauto].
Qed.

(** The loop of [max_scoring_num_rolls] prints the table of averages and
    returns what [pick] selects in it. *)
Lemma max_scoring_loop_pick (d : dice W) (n : nat) :
  forall (count : Z) (best_avg : Q) (best_num : Z) (printed : list (Z * Q))
         (w w' : W) (table : list (Z * Q)),
    average_table d n count w = (Ok table, w') ->
    max_scoring_loop d n count best_avg best_num printed w
    = (Ok (pick table best_avg best_num, printed ++ table), w').
Proof.
  induction n as [|n IH]; intros count best_avg best_num printed w w' table.
  - simpl. unfold ret. intros [= <- <-]. now rewrite app_nil_r.
  - cbn [average_table max_scoring_loop]. unfold bind at 1 3.
    destruct (roll_average (PInt count, d) w) as [[curr|e|] w1];
      try discriminate.
    unfold bind.
    destruct (average_table d n (count + 1) w1) as [[rest|e|] w2] eqn:Er;
      try discriminate.
    unfold ret. intros [= <- <-].
    rewrite (IH _ _ _ _ _ _ _ Er). cbn [pick].
    now rewrite <- app_assoc.
Qed.

Lemma Qle_bool_false (x y : Q) : Qle_bool x y = false -> (y < x)%Q.
Proof.
  intros E. apply Qnot_le_lt. intros H. apply Qle_bool_iff in H. congruence.
Qed.

Lemma Qle_neq_lt (x y : Q) : (x <= y)%Q -> Qeq_bool x y = false -> (x < y)%Q.
Proof.
  intros Hle E. apply Qle_lteq in Hle. destruct Hle as [H|H]; [assumption|].
  apply Qeq_bool_iff in H. congruence.
Qed.

(** What [pick] selects: either nothing in the table reaches [best_avg]
    and [best_num] is kept, or the selected row is the last one holding
    the largest average, which is at least [best_avg]. *)
Lemma pick_spec (table : list (Z * Q)) :
  forall (b : Q) (k : Z),
    (pick table b k = k /\ forall c a, In (c, a) table -> (a < b)%Q)
    \/
    (exists pre an post,
       table = pre ++ (pick table b k, an) :: post /\
       (b <= an)%Q /\
       (forall c a, In (c, a) pre -> (a <= an)%Q) /\
       (forall c a, In (c, a) post -> (a < an)%Q)).
Proof.
  induction table as [|[count curr] rest IH]; intros b k.
  - left. split; [reflexivity|]. intros c a [].
  - cbn [pick]. unfold py_max. destruct (Qle_bool curr b) eqn:Ele.
    + apply Qle_bool_iff in Ele. destruct (Qeq_bool curr b) eqn:Eeq.
      * apply Qeq_bool_iff in Eeq.
        destruct (IH b count)
          as [[Ep Hall]|(pre & an & post & Et & Hb & Hpre & Hpost)].
        -- right. exists [], curr, rest. rewrite Ep.
           split; [reflexivity|]. split; [rewrite Eeq; apply Qle_refl|].
           split; [intros c a []|].
           intros c a Hin. rewrite Eeq. eauto.
        -- right. exists ((count, curr) :: pre), an, post.
           split; [simpl; f_equal; exact Et|]. split; [assumption|].
           split; [|assumption].
           intros c a [[= <- <-]|Hin]; [|eauto].
           apply Qle_trans with b; assumption.
      * pose proof (Qle_neq_lt _ _ Ele Eeq) as Hlt.
        destruct (IH b k)
          as [[Ep Hall]|(pre & an & post & Et & Hb & Hpre & Hpost)].
        -- left. split; [assumption|].
           intros c a [[= <- <-]|Hin]; [assumption|eauto].
        -- right. exists ((count, curr) :: pre), an, post.
           split; [simpl; f_equal; exact Et|]. split; [assumption|].
           split; [|assumption].
           intros c a [[= <- <-]|Hin]; [|eauto].
           apply Qle_trans with b; assumption.
    + apply Qle_bool_false in Ele. rewrite Qeq_bool_refl.
      destruct (IH curr count)
        as [[Ep Hall]|(pre & an & post & Et & Hb & Hpre & Hpost)].
      * right. exists [], curr, rest. rewrite Ep.
        split; [reflexivity|]. split; [apply Qlt_le_weak; assumption|].
        split; [intros c a []|assumption].
      * right. exists ((count, curr) :: pre), an, post.
        split; [simpl; f_equal; exact Et|].
        split; [apply Qle_trans with curr; [apply Qlt_le_weak|]; assumption|].
        split; [|assumption].
        intros c a [[= <- <-]|Hin]; [assumption|eauto].
Qed.

End Experiments.

(** ** Strategies *)

Section Strategies.

Context {W : Type}.
Variable throw : die -> dice W.

Lemma floordiv_ok (a b : Z) : b <> 0 -> floordiv a b = Ok (a / b).
Proof. intros H. unfold floordiv. apply Z.eqb_neq in H. now rewrite H. Qed.

Lemma pymod_ok (a b : Z) : b <> 0 -> pymod a b = Ok (a mod b).
Proof. intros H. unfold pymod. apply Z.eqb_neq in H. now rewrite H. Qed.

Lemma and_then_ok (a b : bool) : and_then (Ok a) (Ok b) = Ok (a && b).
Proof. now destruct a. Qed.

Lemma if_then_ok {A : Type} (c : bool) (t e : result A) :
  if_then (Ok c) t e = if c then t else e.
Proof. now destruct c. Qed.

Lemma free_bacon_digits (opponent_score : Z) :
  0 <= opponent_score < 100 ->
  0 <= Z.max (opponent_score / 10) (opponent_score mod 10) <= 9.
Proof. intros H. Z.div_mod_to_equations. lia. Qed.

Lemma repeated_strategy_range (score opponent_score best : Z) (k : die) :
  1 <= best <= 10 ->
  1 <= repeated_strategy score opponent_score k best <= 10.
Proof.
  intros H. unfold repeated_strategy. cbv zeta.
  destruct (is_four_sided k);
    repeat match goal with
           | |- context [if ?c then _ else _] => destruct c
           end; lia.
Qed.

(** On the four-sided branch the test [roll0 == 2] fails when the
    opponent has no points: it would need an own score of 1, and 1 is not
    a multiple of 7. *)
Lemma four_sided_guard (score : Z) :
  is_four_sided (select_dice score 0) = true ->
  (score + (1 + Z.max (0 / 10) (0 mod 10)) =? 2) = false.
Proof.
  unfold select_dice. change (Z.max (0 / 10) (0 mod 10)) with 0.
  destruct (Z.eqb_spec ((score + 0) mod 7) 0) as [E|E]; [|discriminate].
  intros _. apply Z.eqb_neq. intros H.
  assert (score = 1) by lia. subst score. discriminate E.
Qed.

Ltac split_decision :=
  repeat match goal with
         | |- exists n, (if ?c then _ else _) = _ /\ _ => destruct c
         end;
  eexists; (split; [reflexivity|]).

Ltac bound_repeated :=
  try match goal with
      | |- context [repeated_strategy ?s ?o ?k ?b] =>
          assert (1 <= repeated_strategy s o k b <= 10)
            by (apply repeated_strategy_range; assumption)
      end.

(** The decision of [final_strategy] never raises on valid scores, and
    stays in [0, 10] when the two precomputed maxima do. *)
Lemma final_decision_ok (g : globals) (score opponent_score : Z) :
  0 <= score -> 0 <= opponent_score < 100 ->
  exists n,
    final_decision g score opponent_score = Ok n /\
    (1 <= four_sided_max g <= 10 -> 1 <= six_sided_max g <= 10 ->
     0 <= n <= 10).
Proof.
  intros Hs Ho. unfold final_decision. cbv zeta.
  destruct (Z.eq_dec opponent_score 0) as [->|Hne].
  - pose proof (four_sided_guard score) as Hg.
    change (Z.max (0 / 10) (0 mod 10)) with 0 in *.
    assert (E1 : (score + (1 + 0) <? 0) = false) by (apply Z.ltb_ge; lia).
    rewrite E1. cbn [and_then if_then negb Z.eqb].
    destruct (is_four_sided (select_dice score 0)) eqn:E4.
    + rewrite (Hg eq_refl).
      destruct (0 <? score + (1 + 0)); cbn [and_then if_then];
        split_decision; intros H4 H6; bound_repeated; lia.
    + split_decision; intros H4 H6; bound_repeated; lia.
  - pose proof (free_bacon_digits opponent_score Ho) as Hm.
    set (m := Z.max (opponent_score / 10) (opponent_score mod 10)) in *.
    rewrite (floordiv_ok opponent_score (score + (1 + m))) by lia.
    rewrite (pymod_ok opponent_score (score + (1 + m))) by lia.
    rewrite (floordiv_ok (score + (1 + m)) opponent_score) by assumption.
    rewrite (pymod_ok (score + (1 + m)) opponent_score) by assumption.
    cbn [eq_int]. rewrite !and_then_ok, !if_then_ok.
    destruct (is_four_sided (select_dice score opponent_score)) eqn:E4;
      split_decision; intros H4 H6; bound_repeated; lia.
Qed.

(** Whatever the dice, [max_scoring_num_rolls] returns a count in 1..10. *)
Lemma max_scoring_num_rolls_range (d : dice W) (w : W) :
  exists n table w',
    max_scoring_num_rolls d w = (Ok (n, table), w') /\ 1 <= n <= 10.
Proof.
  destruct (average_table_ok d 10 1 w) as (table & w' & Et & Hfst & _);
    [lia|].
  exists (pick table 0%Q 1), table, w'. split.
  - unfold max_scoring_num_rolls.
    change (Z.to_nat (10 - 1 + 1)) with 10%nat.
    now rewrite (max_scoring_loop_pick d 10 1 0%Q 1 [] w w' table Et).
  - destruct (pick_spec table 0%Q 1) as [[-> _]|(pre & an & post & E & _)];
      [lia|].
    remember (pick table 0%Q 1) as n eqn:En. clear En.
    assert (Hin : In n (map fst table)).
    { rewrite E, map_app, in_app_iff. right. now left. }
    rewrite Hfst in Hin. simpl in Hin.
    repeat (destruct Hin as [<-|Hin]; [lia|]). destruct Hin.
Qed.

(** Loading the module succeeds and leaves both maxima in 1..10. *)
Lemma module_init_range (w : W) :
  exists g w',
    module_init throw w = (Ok g, w') /\
    1 <= four_sided_max g <= 10 /\ 1 <= six_sided_max g <= 10.
Proof.
  destruct (max_scoring_num_rolls_range (throw four_sided) w)
    as (n4 & t4 & w1 & E4 & H4).
  destruct (max_scoring_num_rolls_range (throw six_sided) w1)
    as (n6 & t6 & w2 & E6 & H6).
  exists (Globals n4 n6), w2. unfold module_init, bind.
  rewrite E4, E6. unfold ret. auto.
Qed.

(** [final_strategy] draws five six-sided dice and then returns its
    decision, which does not look at them. *)
Lemma final_strategy_decision (g : globals) (score opponent_score : Z)
  (w : W) :
  final_strategy throw g score opponent_score w =
  (final_decision g score opponent_score,
   snd (draws (throw six_sided) 5 w)).
Proof.
  unfold final_strategy, bind. cbv zeta.
  rewrite roll_dice_draws by lia. reflexivity.
Qed.

Lemma final_strategy_in_range (g : globals) :
  1 <= four_sided_max g <= 10 -> 1 <= six_sided_max g <= 10 ->
  rolls_in_range (final_strategy throw g).
Proof.
  intros H4 H6 score opp w Hs Ho. rewrite final_strategy_decision.
  destruct (final_decision_ok g score opp Hs Ho) as (n & -> & Hn).
  eauto.
Qed.

Lemma bacon_strategy_range (score opponent_score : Z) :
  0 <= bacon_strategy score opponent_score <= 10.
Proof.
  unfold bacon_strategy, BASELINE_NUM_ROLLS. destruct (_ <=? _); lia.
Qed.

Lemma swap_strategy_range (score opponent_score : Z) :
  0 <= swap_strategy score opponent_score <= 10.
Proof.
  unfold swap_strategy, BASELINE_NUM_ROLLS. cbv zeta.
  pose proof (bacon_strategy_range score opponent_score).
  destruct (_ =? _); [lia|]. destruct (_ =? _); lia.
Qed.

Lemma pure_strategy_in_range (f : Z -> Z -> Z) :
  (forall score opponent_score, 0 <= f score opponent_score <= 10) ->
  rolls_in_range (W := W) (pure_strategy f).
Proof.
  intros H score opp w _ _. exists (f score opp), w. split; [reflexivity|].
  apply H.
Qed.

(** C8.  Every strategy of the library returns a roll count in [0, 10] for
    every own score [>= 0] and every opponent score in [0, 100):
    [always_roll(n)] for [n] in [0, 10], [bacon_strategy], [swap_strategy],
    and [final_strategy] with the two maxima computed when the module is
    loaded (which always succeeds).  Hence no assertion of [take_turn]
    fires on the roll count of a strategy in that range. *)
Theorem library_strategies_in_range (w0 : W) :
  (forall n, 0 <= n <= 10 -> rolls_in_range (W := W) (pure_strategy (always_roll n)))
  /\ rolls_in_range (W := W) (pure_strategy bacon_strategy)
  /\ rolls_in_range (W := W) (pure_strategy swap_strategy)
  /\ (exists g w1,
        module_init throw w0 = (Ok g, w1) /\
        rolls_in_range (final_strategy throw g))
  /\ (forall (s : strategy) (score opponent_score n : Z) (w w' : W)
             (d : dice W),
        rolls_in_range s ->
        0 <= score -> 0 <= opponent_score < 100 ->
        s score opponent_score w = (Ok n, w') ->
        is_assertion_error (fst (take_turn (PInt n) opponent_score d w'))
        = false).
Proof.
  split; [|split; [|split; [|split]]].
  - intros n Hn. apply pure_strategy_in_range. intros score opp. exact Hn.
  - apply pure_strategy_in_range, bacon_strategy_range.
  - apply pure_strategy_in_range, swap_strategy_range.
  - destruct (module_init_range w0) as (g & w1 & E & H4 & H6).
    exists g, w1. split; [exact E|].
    apply final_strategy_in_range; assumption.
  - intros s score opp n w w' d Hs Hsc Ho E.
    destruct (Hs score opp w Hsc Ho) as (n' & w'' & E' & Hn).
    rewrite E in E'. injection E' as En Ew. subst n' w''.
    rewrite take_turn_accepts by lia.
    destruct (n =? 0) eqn:E0; [reflexivity|].
    apply Z.eqb_neq in E0. now rewrite roll_dice_draws by lia.
Qed.

(** C9.  Every strategy of the library returns the same roll count
    whenever it is called with the same two scores, whatever the world:
    [always_roll(n)], [bacon_strategy] and [swap_strategy] read nothing
    but their arguments, and the roll count of [final_strategy] does not
    depend on the five dice it draws nor on the state it is called in. *)
Theorem library_strategies_deterministic :
  (forall n, deterministic (W := W) (pure_strategy (always_roll n)))
  /\ deterministic (W := W) (pure_strategy bacon_strategy)
  /\ deterministic (W := W) (pure_strategy swap_strategy)
  /\ (forall g, deterministic (final_strategy throw g))
  /\ (forall g score opponent_score w,
        fst (final_strategy throw g score opponent_score w)
        = final_decision g score opponent_score).
Proof.
  repeat split; try (intros; intro; intros; reflexivity).
  - intros g score opp w1 w2. now rewrite !final_strategy_decision.
  - intros. now rewrite final_strategy_decision.
Qed.

(** C10.  For every own score [>= 0] and every opponent score in
    [0, 100), [final_strategy] returns a roll count: no division or modulus
    by zero is evaluated.  In particular, with an opponent score of 0 on
    the four-sided branch, [roll0] is not 2, so the modulus by
    [opponent_score] of line 328 is not reached. *)
Theorem final_strategy_no_zero_division (g : globals)
  (score opponent_score : Z) (w : W) :
  0 <= score -> 0 <= opponent_score < 100 ->
  (exists n w', final_strategy throw g score opponent_score w = (Ok n, w'))
  /\ fst (final_strategy throw g score opponent_score w)
     <> Raise ZeroDivisionError
  /\ (opponent_score = 0 ->
      select_dice score opponent_score = four_sided ->
      score + (1 + Z.max (opponent_score / 10) (opponent_score mod 10)) <> 2).
Proof.
  intros Hs Ho. rewrite final_strategy_decision.
  destruct (final_decision_ok g score opponent_score Hs Ho) as (n & -> & _).
  split; [eauto|]. split; [discriminate|].
  intros -> E4. apply Z.eqb_neq, four_sided_guard. now rewrite E4.
Qed.

End Strategies.

(** * Further properties of the code *)

(** ** Rolling and turns: errors and bounds *)

Section TurnBounds.

Context {W : Type}.

(** X1.  [roll_dice] refuses a count that is not an [int], and an [int]
    count below 1, with the message of the assertion that fails, and
    without drawing any dice. *)
Theorem roll_dice_rejects (d : dice W) (num_rolls : pyval) (w : W) :
  (type_is_int num_rolls = false ->
   roll_dice num_rolls d w
   = (Raise (AssertionError "num_rolls must be an integer."), w))
  /\
  (forall n, num_rolls = PInt n -> n <= 0 ->
   roll_dice num_rolls d w
   = (Raise (AssertionError "Must roll at least once."), w)).
Proof.
  split.
  - intros H. destruct num_rolls; try discriminate H; reflexivity.
  - intros n -> Hn. unfold roll_dice. unfold_monad. simpl.
    assert (E : (0 <? n) = false) by (apply Z.ltb_ge; lia).
    now rewrite E.
Qed.

Lemma sum_list_between (l : list Z) (lo hi : Z) :
  (forall x, In x l -> lo <= x <= hi) ->
  lo * Z.of_nat (List.length l) <= sum_list l <= hi * Z.of_nat (List.length l).
Proof.
  induction l as [|a l IH]; intros H.
  - simpl. lia.
  - assert (Ha : lo <= a <= hi) by (apply H; now left).
    assert (IH' : lo * Z.of_nat (List.length l) <= sum_list l
                  <= hi * Z.of_nat (List.length l))
      by (apply IH; intros x Hx; apply H; now right).
    change (sum_list (a :: l)) with (a + sum_list l).
    change (List.length (a :: l)) with (S (List.length l)).
    rewrite Nat2Z.inj_succ. lia.
Qed.

Lemma draws_between (d : dice W) (lo hi : Z) (n : nat) :
  (forall w, lo <= fst (d w) <= hi) ->
  forall w x, In x (fst (draws d n w)) -> lo <= x <= hi.
Proof.
  intros Hd. induction n as [|n IH]; intros w x; simpl; [tauto|].
  pose proof (Hd w) as H1. destruct (d w) as [y w1]. specialize (IH w1 x).
  destruct (draws d n w1) as [xs w2]; simpl in *.
  intros [<-|Hx]; auto.
Qed.

Lemma no_one_in (l : list Z) (x : Z) :
  existsb (Z.eqb 1) l = false -> In x l -> x <> 1.
Proof.
  intros E Hin ->. 
  assert (existsb (Z.eqb 1) l = true)
    by (apply existsb_exists; exists 1; split; [assumption|reflexivity]).
  congruence.
Qed.

Lemma roll_dice_between (d : dice W) (n k : Z) (w : W) :
  (forall w0, 1 <= fst (d w0) <= k) -> 1 <= n ->
  exists v w',
    roll_dice (PInt n) d w = (Ok v, w') /\
    (v = 1 \/ 2 * n <= v <= k * n).
Proof.
  intros Hd Hn. rewrite roll_dice_draws by assumption.
  eexists; eexists; split; [reflexivity|].
  destruct (existsb _ _) eqn:E; [now left|right].
  pose proof (draws_length d (Z.to_nat n) w) as Hlen.
  split.
  - pose proof (sum_list_between (fst (draws d (Z.to_nat n) w)) 2 k) as H.
    rewrite Hlen in H. rewrite Z2Nat.id in H by lia. apply H.
    intros x Hx.
    pose proof (draws_between d 1 k (Z.to_nat n) Hd w x Hx).
    pose proof (no_one_in _ x E Hx). lia.
  - pose proof (sum_list_between (fst (draws d (Z.to_nat n) w)) 1 k) as H.
    rewrite Hlen in H. rewrite Z2Nat.id in H by lia. apply H.
    intros x Hx. apply (draws_between d 1 k (Z.to_nat n) Hd w x Hx).
Qed.

(** X2.  With a dice whose outcomes lie in [1, k], a roll of [n >= 1] dice
    scores either exactly 1 (pig out) or between [2 * n] and [k * n]:
    no score strictly between 1 and [2 * n] is possible. *)
Theorem roll_dice_value_bounds (d : dice W) (n k : Z) (w : W) :
  (forall w0, 1 <= fst (d w0) <= k) -> 1 <= n ->
  exists v w',
    roll_dice (PInt n) d w = (Ok v, w') /\
    (v = 1 \/ 2 * n <= v <= k * n).
Proof. apply roll_dice_between. Qed.

Lemma take_turn_positive (d : dice W) (n opponent_score : Z) (w : W) :
  (forall w0, 1 <= fst (d w0)) ->
  0 <= n <= 10 -> 0 <= opponent_score < 100 ->
  exists v w', take_turn (PInt n) opponent_score d w = (Ok v, w') /\ 1 <= v.
Proof.
  intros Hd Hn Ho. rewrite take_turn_accepts by lia.
  destruct (n =? 0) eqn:E0.
  - eexists; eexists; split; [reflexivity|].
    assert (0 <= opponent_score / 10) by (apply Z.div_pos; lia). lia.
  - apply Z.eqb_neq in E0. apply roll_dice_positive; [assumption|lia].
Qed.

Lemma take_turn_value_bounds_aux (d : dice W) (n k opponent_score : Z)
  (w : W) :
  (forall w0, 1 <= fst (d w0) <= k) ->
  0 <= n <= 10 -> 0 <= opponent_score < 100 ->
  exists v w',
    take_turn (PInt n) opponent_score d w = (Ok v, w') /\
    1 <= v <= Z.max 10 (k * n) /\
    (n = 0 -> v <= 10 /\ w' = w).
Proof.
  intros Hd Hn Ho. rewrite take_turn_accepts by lia.
  destruct (n =? 0) eqn:E0.
  - apply Z.eqb_eq in E0. eexists; eexists; split; [reflexivity|].
    assert (0 <= Z.max (opponent_score / 10) (opponent_score mod 10) <= 9)
      by (Z.div_mod_to_equations; lia).
    split; [lia|]. intros _. split; [lia|reflexivity].
  - apply Z.eqb_neq in E0.
    destruct (roll_dice_between d n k w Hd) as (v & w' & E & Hv); [lia|].
    exists v, w'. split; [exact E|]. split; [|lia].
    assert (1 <= k) by (specialize (Hd w); lia). nia.
Qed.

(** X3.  A turn with valid arguments and a dice with outcomes in [1, k]
    is worth at least 1 point and at most [max(10, k * num_rolls)]; free
    bacon is worth between 1 and 10 and draws nothing. *)
Theorem take_turn_value_bounds (d : dice W) (n k opponent_score : Z) (w : W) :
  (forall w0, 1 <= fst (d w0) <= k) ->
  0 <= n <= 10 -> 0 <= opponent_score < 100 ->
  exists v w',
    take_turn (PInt n) opponent_score d w = (Ok v, w') /\
    1 <= v <= Z.max 10 (k * n) /\
    (n = 0 -> v <= 10 /\ w' = w).
Proof. apply take_turn_value_bounds_aux. Qed.

(** X4.  The assertions of [take_turn] are tried in the order of the
    source: a negative count is reported before anything else, a count
    above 10 before the score, and a score of 100 or more is reported
    only for a count in [0, 10]. *)
Theorem take_turn_assertion_order (d : dice W) (n opponent_score : Z) (w : W) :
  (n < 0 ->
   take_turn (PInt n) opponent_score d w
   = (Raise (AssertionError "Cannot roll a negative number of dice."), w))
  /\ (10 < n ->
      take_turn (PInt n) opponent_score d w
      = (Raise (AssertionError "Cannot roll more than 10 dice."), w))
  /\ (0 <= n <= 10 -> 100 <= opponent_score ->
      take_turn (PInt n) opponent_score d w
      = (Raise (AssertionError "The game should be over."), w)).
Proof.
  unfold take_turn. unfold_monad. simpl. repeat split.
  - intros H. assert (E : (0 <=? n) = false) by (apply Z.leb_gt; lia).
    now rewrite E.
  - intros H. assert (E0 : (0 <=? n) = true) by (apply Z.leb_le; lia).
    assert (E1 : (n <=? 10) = false) by (apply Z.leb_gt; lia).
    now rewrite E0, E1.
  - intros Hn Ho. assert (E0 : (0 <=? n) = true) by (apply Z.leb_le; lia).
    assert (E1 : (n <=? 10) = true) by (apply Z.leb_le; lia).
    assert (E2 : (opponent_score <? 100) = false) by (apply Z.ltb_ge; lia).
    now rewrite E0, E1, E2.
Qed.

(** X5.  The choice of dice depends only on the sum of the two scores
    modulo 7: it is the same for both players' view of the scores, and
    unchanged when either score grows by 7. *)
Theorem select_dice_symmetric_periodic (score opponent_score : Z) :
  select_dice score opponent_score = select_dice opponent_score score
  /\ select_dice (score + 7) opponent_score = select_dice score opponent_score
  /\ (select_dice score opponent_score = four_sided
      <-> exists q, score + opponent_score = 7 * q).
Proof.
  unfold select_dice. split; [|split].
  - now rewrite Z.add_comm.
  - replace (score + 7 + opponent_score)
      with (score + opponent_score + 1 * 7) by lia.
    now rewrite Z.mod_add by lia.
  - destruct (Z.eqb_spec ((score + opponent_score) mod 7) 0) as [E|E].
    + split; [intros _|reflexivity].
      exists ((score + opponent_score) / 7).
      pose proof (Z.div_mod (score + opponent_score) 7). lia.
    + split; [discriminate|]. intros [q Hq]. exfalso. apply E.
      rewrite Hq, Z.mul_comm. apply Z.mod_mul. lia.
Qed.

End TurnBounds.

(** ** The game loop: invariants, winners and failures *)

Section GameInvariants.

Context {W : Type}.
Variable throw : die -> dice W.

(** A rule for the loop of [play]: a symmetric relation between the two
    scores that every turn of an admissible strategy keeps, holds of the
    pair returned; and that pair has left the loop. *)
Lemma play_loop_invariant (I : Z -> Z -> Prop) (S : strategy -> Prop)
  (goal : Z) :
  (forall a b, I a b -> I b a) ->
  (forall (s : strategy) score opp (w w' : W) r,
     S s -> score < goal -> opp < goal -> I score opp ->
     play_turn throw s score opp w = (Ok r, w') -> I (fst r) (snd r)) ->
  forall (fuel : nat) (sA sB : strategy) (who score opp : Z) (w w' : W) r,
    S sA -> S sB -> I score opp ->
    play_loop throw fuel sA sB who score opp goal w = (Ok r, w') ->
    I (fst r) (snd r) /\ (goal <= fst r \/ goal <= snd r).
Proof.
  intros Hsym Hturn.
  induction fuel as [|fuel IH]; intros sA sB who score opp w w' r HA HB HI;
    cbn [play_loop]; [discriminate|].
  destruct ((score <? goal) && (opp <? goal)) eqn:Ec.
  - apply andb_true_iff in Ec. rewrite !Z.ltb_lt in Ec.
    unfold bind at 1.
    destruct (play_turn throw sA score opp w) as [[[s' o']|e|] w1] eqn:Et;
      try discriminate.
    intros Hrun.
    apply (IH sB sA (other who) o' s' w1 w' r HB HA); [|exact Hrun].
    apply Hsym.
    apply (Hturn sA score opp w w1 (s', o') HA (proj1 Ec) (proj2 Ec) HI Et).
  - apply andb_false_iff in Ec. rewrite !Z.ltb_ge in Ec.
    unfold ret. intros [= <- _].
    destruct (who =? 1); cbn [fst snd]; split; auto; lia.
Qed.

(** What a turn of a strategy with counts in [0, 10] does to the scores,
    for a dice with outcomes of at least 1. *)
Lemma play_turn_gain (s : strategy) (score opp : Z) (w w' : W) (r : Z * Z) :
  positive_dice throw -> rolls_in_range s ->
  0 <= score -> 0 <= opp < 100 ->
  play_turn throw s score opp w = (Ok r, w') ->
  exists n gained w1,
    0 <= n <= 10 /\ 1 <= gained /\
    take_turn (PInt n) opp (throw (select_dice score opp)) w1
    = (Ok gained, w') /\
    (r = (opp, score + gained) \/ r = (score + gained, opp)).
Proof.
  intros Hd Hs Hsc Ho Ht.
  apply play_turn_inv in Ht. destruct Ht as (n & gained & w1 & En & Eg & Hr).
  destruct (Hs score opp w Hsc Ho) as (n' & w1' & En' & Hn).
  rewrite En in En'. injection En' as E1 E2. subst n' w1'.
  destruct (take_turn_positive (throw (select_dice score opp)) n opp w1)
    as (v & w2 & Ev & Hv); try assumption; [intros w0; apply Hd|].
  rewrite Eg in Ev. injection Ev as E1 E2. subst v w2.
  exists n, gained, w1. repeat split; try lia; try assumption.
  rewrite Hr. destruct (_ || _); auto.
Qed.

Lemma play_single_winner_inv (fuel : nat) (sA sB : strategy)
  (who score opp : Z) (w w' : W) (r : Z * Z) :
  positive_dice throw -> rolls_in_range sA -> rolls_in_range sB ->
  0 <= score -> 0 <= opp -> score < 100 \/ opp < 100 ->
  play_loop throw fuel sA sB who score opp GOAL_SCORE w = (Ok r, w') ->
  (100 <= fst r /\ 0 <= snd r < 100) \/ (100 <= snd r /\ 0 <= fst r < 100).
Proof.
  intros Hd HA HB Hs Ho Hlt Hrun. unfold GOAL_SCORE in *.
  assert (Hturn : forall (s : strategy) sc op (w0 w1 : W) r0,
             rolls_in_range s -> sc < 100 -> op < 100 ->
             0 <= sc /\ 0 <= op /\ (sc < 100 \/ op < 100) ->
             play_turn throw s sc op w0 = (Ok r0, w1) ->
             0 <= fst r0 /\ 0 <= snd r0 /\ (fst r0 < 100 \/ snd r0 < 100)).
  { intros s sc op w0 w1 r0 Hs0 Hsc Hop (H0 & H1 & _) Ht.
    destruct (play_turn_gain s sc op w0 w1 r0 Hd Hs0 H0 (conj H1 Hop) Ht)
      as (n & g & w2 & _ & Hg & _ & [-> | ->]); cbn [fst snd]; lia. }
  destruct (play_loop_invariant
              (fun a b => 0 <= a /\ 0 <= b /\ (a < 100 \/ b < 100))
              rolls_in_range 100 ltac:(cbv beta; intros a b; tauto) Hturn
              fuel sA sB who score opp w w' r HA HB
              (conj Hs (conj Ho Hlt)) Hrun) as [HI Hgoal].
  lia.
Qed.

Lemma play_outcome (strategy0 strategy1 : strategy) (w : W) :
  positive_dice throw ->
  rolls_in_range strategy0 -> rolls_in_range strategy1 ->
  exists score0 score1 w',
    (forall fuel, (200 <= fuel)%nat ->
       play throw fuel strategy0 strategy1 GOAL_SCORE w
       = (Ok (score0, score1), w')) /\
    ((100 <= score0 /\ 0 <= score1 < 100)
     \/ (100 <= score1 /\ 0 <= score0 < 100)) /\
    score0 <> score1.
Proof.
  intros Hd H0 H1.
  destruct (play_loop_terminates throw 199 strategy0 strategy1 0 0 0 w
              Hd H0 H1) as ([score0 score1] & w' & Hrun & _); try lia.
  exists score0, score1, w'.
  assert (Hone : (100 <= score0 /\ 0 <= score1 < 100)
                 \/ (100 <= score1 /\ 0 <= score0 < 100)).
  { apply (play_single_winner_inv 200 strategy0 strategy1 0 0 0 w w'
             (score0, score1)); try assumption; try lia.
    apply Hrun. lia. }
  split; [|split; [exact Hone|lia]].
  intros fuel Hf. apply Hrun. lia.
Qed.

(** X6.  For strategies with counts in [0, 10] and dice with outcomes of
    at least 1, a game ends with exactly one score at 100 or more; the
    other score is between 0 and 99.  A game is never drawn. *)
Theorem play_single_winner (strategy0 strategy1 : strategy) (w : W) :
  positive_dice throw ->
  rolls_in_range strategy0 -> rolls_in_range strategy1 ->
  exists score0 score1 w',
    (forall fuel, (200 <= fuel)%nat ->
       play throw fuel strategy0 strategy1 GOAL_SCORE w
       = (Ok (score0, score1), w')) /\
    ((100 <= score0 /\ 0 <= score1 < 100)
     \/ (100 <= score1 /\ 0 <= score0 < 100)) /\
    score0 <> score1.
Proof. apply play_outcome. Qed.

Lemma winner_outcome (strategy0 strategy1 : strategy) (w : W) :
  positive_dice throw ->
  rolls_in_range strategy0 -> rolls_in_range strategy1 ->
  exists v score0 score1 w',
    (forall fuel, (200 <= fuel)%nat ->
       play throw fuel strategy0 strategy1 GOAL_SCORE w
       = (Ok (score0, score1), w') /\
       winner throw fuel strategy0 strategy1 w = (Ok v, w')) /\
    ((v = 0 /\ 100 <= score0 /\ score1 < 100)
     \/ (v = 1 /\ 100 <= score1 /\ score0 < 100)).
Proof.
  intros Hd H0 H1.
  destruct (play_outcome strategy0 strategy1 w Hd H0 H1)
    as (score0 & score1 & w' & Hrun & Hone & _).
  exists (if score1 <? score0 then 0 else 1), score0, score1, w'. split.
  - intros fuel Hf. split; [now apply Hrun|].
    unfold winner, bind. rewrite (Hrun fuel Hf).
    now destruct (score1 <? score0).
  - destruct (Z.ltb_spec score1 score0); lia.
Qed.

(** X8.  [winner] returns 0 exactly when player 0 is the one who reached
    100, and 1 exactly when player 1 did; its tie case (equal scores
    counted for player 1) cannot occur. *)
Theorem winner_reports_goal (strategy0 strategy1 : strategy) (w : W) :
  positive_dice throw ->
  rolls_in_range strategy0 -> rolls_in_range strategy1 ->
  exists v score0 score1 w',
    (forall fuel, (200 <= fuel)%nat ->
       play throw fuel strategy0 strategy1 GOAL_SCORE w
       = (Ok (score0, score1), w') /\
       winner throw fuel strategy0 strategy1 w = (Ok v, w')) /\
    ((v = 0 /\ 100 <= score0 /\ score1 < 100)
     \/ (v = 1 /\ 100 <= score1 /\ score0 < 100)).
Proof. apply winner_outcome. Qed.

(** X9.  With a goal of 0 or less the game is over before it starts:
    [play] returns (0, 0) without calling a strategy or drawing a dice,
    whatever the strategies are. *)
Theorem play_nonpositive_goal (fuel : nat) (strategy0 strategy1 : strategy)
  (goal : Z) (w : W) :
  goal <= 0 ->
  play throw (S fuel) strategy0 strategy1 goal w = (Ok (0, 0), w).
Proof.
  intros Hg. unfold play. cbn [play_loop].
  assert (E : (0 <? goal) = false) by (apply Z.ltb_ge; lia).
  now rewrite E.
Qed.

(** X10.  The loop of [play] stops at the first failure of a turn: an
    exception raised by the strategy is raised by [play]; a count outside
    [0, 10] returned by the strategy, or an opponent score of 100 or more
    (possible only with a goal above 100), makes the turn fail with an
    [AssertionError] before any dice is drawn. *)
Theorem play_loop_stops_at_failure (fuel : nat) (sA sB : strategy)
  (who score opp goal : Z) (w w1 : W) :
  score < goal -> opp < goal ->
  (forall e, sA score opp w = (Raise e, w1) ->
     play_loop throw (S fuel) sA sB who score opp goal w = (Raise e, w1))
  /\
  (forall n, sA score opp w = (Ok n, w1) ->
     ~ 0 <= n <= 10 \/ 100 <= opp ->
     exists msg,
       play_loop throw (S fuel) sA sB who score opp goal w
       = (Raise (AssertionError msg), w1)).
Proof.
  intros Hs Ho.
  assert (E : (score <? goal) && (opp <? goal) = true)
    by (apply andb_true_iff; rewrite !Z.ltb_lt; auto).
  split.
  - intros e He. cbn [play_loop]. rewrite E.
    unfold bind, play_turn. unfold bind. now rewrite He.
  - intros n Hn Hbad.
    destruct (take_turn_rejects (throw (select_dice score opp)) (PInt n)
                opp w1) as [msg Hmsg].
    { destruct Hbad as [Hbad|Hbad]; [left|now right].
      intros m [= <-]. exact Hbad. }
    exists msg. cbn [play_loop]. rewrite E.
    unfold bind, play_turn. unfold bind. now rewrite Hn, Hmsg.
Qed.

(** X7.  With dice whose outcomes lie in [1, k], no score of a finished
    game exceeds [99 + max(10, 10 * k)]: 159 for six-sided dice. *)
Theorem play_scores_bounded (k : Z) (fuel : nat)
  (strategy0 strategy1 : strategy) (w w' : W) (score0 score1 : Z) :
  (forall kd w0, 1 <= fst (throw kd w0) <= k) ->
  rolls_in_range strategy0 -> rolls_in_range strategy1 ->
  play throw fuel strategy0 strategy1 GOAL_SCORE w
  = (Ok (score0, score1), w') ->
  0 <= score0 <= 99 + Z.max 10 (10 * k) /\
  0 <= score1 <= 99 + Z.max 10 (10 * k).
Proof.
  intros Hd H0 H1 Hrun. unfold play in Hrun.
  assert (Hpos : positive_dice throw)
    by (intros kd w0; specialize (Hd kd w0); lia).
  assert (Hk : 1 <= k) by (specialize (Hd six_sided w); lia).
  unfold GOAL_SCORE in *.
  assert (Hturn : forall (s : strategy) sc op (w0 w1 : W) r0,
             rolls_in_range s -> sc < 100 -> op < 100 ->
             0 <= sc <= 99 + Z.max 10 (10 * k)
             /\ 0 <= op <= 99 + Z.max 10 (10 * k) ->
             play_turn throw s sc op w0 = (Ok r0, w1) ->
             0 <= fst r0 <= 99 + Z.max 10 (10 * k)
             /\ 0 <= snd r0 <= 99 + Z.max 10 (10 * k)).
  { intros s sc op w0 w1 r0 Hs0 Hsc Hop (Ha & Hb) Ht.
    destruct (play_turn_gain s sc op w0 w1 r0 Hpos Hs0 (proj1 Ha)
                (conj (proj1 Hb) Hop) Ht)
      as (n & g & w2 & Hn & Hg & Eg & Hr).
    destruct (take_turn_value_bounds_aux (throw (select_dice sc op)) n k op w2)
      as (v & w3 & Ev & Hv); try lia; [intros w4; apply Hd|].
    rewrite Eg in Ev. injection Ev as E1 E2. subst v w3.
    assert (k * n <= 10 * k) by nia.
    destruct Hr as [-> | ->]; cbn [fst snd]; lia. }
  destruct (play_loop_invariant
              (fun a b => 0 <= a <= 99 + Z.max 10 (10 * k)
                          /\ 0 <= b <= 99 + Z.max 10 (10 * k))
              rolls_in_range 100 ltac:(cbv beta; intros a b; tauto) Hturn
              fuel strategy0 strategy1 0 0 0 w w' (score0, score1) H0 H1
              ltac:(cbv beta; lia) Hrun) as [HI _].
  exact HI.
Qed.

(** X21.  [play] consults a strategy only at own and opponent scores in
    [0, 100): replacing the strategies by others that agree with them on
    these scores changes nothing, whatever they do elsewhere. *)
Theorem play_consults_valid_scores (fuel : nat)
  (strategy0 strategy1 other0 other1 : strategy) (w : W) :
  positive_dice throw ->
  rolls_in_range strategy0 -> rolls_in_range strategy1 ->
  (forall score opp w0, 0 <= score < 100 -> 0 <= opp < 100 ->
     strategy0 score opp w0 = other0 score opp w0) ->
  (forall score opp w0, 0 <= score < 100 -> 0 <= opp < 100 ->
     strategy1 score opp w0 = other1 score opp w0) ->
  play throw fuel strategy0 strategy1 GOAL_SCORE w
  = play throw fuel other0 other1 GOAL_SCORE w.
Proof.
  intros Hd. unfold play, GOAL_SCORE.
  assert (H : forall (sA sB tA tB : strategy) who score opp w0,
             rolls_in_range sA -> rolls_in_range sB ->
             (forall score opp w0, 0 <= score < 100 -> 0 <= opp < 100 ->
                sA score opp w0 = tA score opp w0) ->
             (forall score opp w0, 0 <= score < 100 -> 0 <= opp < 100 ->
                sB score opp w0 = tB score opp w0) ->
             0 <= score -> 0 <= opp ->
             play_loop throw fuel sA sB who score opp 100 w0
             = play_loop throw fuel tA tB who score opp 100 w0).
  { induction fuel as [|fuel IH];
      intros sA sB tA tB who score opp w0 HA HB EA EB Hs Ho;
      [reflexivity|].
    cbn [play_loop].
    destruct ((score <? 100) && (opp <? 100)) eqn:Ec; [|reflexivity].
    apply andb_true_iff in Ec. rewrite !Z.ltb_lt in Ec.
    assert (Et : play_turn throw tA score opp w0
                 = play_turn throw sA score opp w0).
    { unfold play_turn, bind. now rewrite EA by lia. }
    unfold bind at 1 2. rewrite Et.
    destruct (play_turn throw sA score opp w0) as [[[s' o']|e|] w1] eqn:E;
      try reflexivity.
    destruct (play_turn_gain sA score opp w0 w1 (s', o') Hd HA Hs
                (conj Ho (proj2 Ec)) E)
      as (n & g & w2 & _ & Hg & _ & Hr).
    apply IH; try assumption;
      destruct Hr as [Hr|Hr]; injection Hr as -> ->; lia. }
  intros H0 H1 E0 E1. apply H; try assumption; lia.
Qed.

End GameInvariants.

(** ** Averaging and experiments *)

Section Averaging.

Context {W : Type}.

(** X11.  [make_averaged] with no sample to take ([num_samples <= 0])
    divides by a zero count: it raises [ZeroDivisionError] without calling
    the averaged function.  With at least one sample, an exception of the
    first call is raised as it is. *)
Theorem make_averaged_failures {A : Type} (fn : A -> M W Z)
  (num_samples : Z) (args : A) (w : W) :
  (num_samples <= 0 ->
   make_averaged fn num_samples args w = (Raise ZeroDivisionError, w))
  /\
  (forall e w', 1 <= num_samples -> fn args w = (Raise e, w') ->
   make_averaged fn num_samples args w = (Raise e, w')).
Proof.
  split.
  - intros H. unfold make_averaged, bind.
    replace (Z.to_nat num_samples) with 0%nat by lia. reflexivity.
  - intros e w' H He. unfold make_averaged, bind.
    destruct (Z.to_nat num_samples) as [|n] eqn:En; [lia|].
    cbn [average_loop]. unfold bind. now rewrite He.
Qed.

Lemma average_loop_between {A : Type} (fn : A -> M W Z) (args : A)
  (lo hi : Z) :
  (forall w, exists v w', fn args w = (Ok v, w') /\ lo <= v <= hi) ->
  forall (n : nat) (count total : Z) (w : W),
    exists total' w',
      average_loop fn args n count total w
      = (Ok (count + Z.of_nat n, total'), w') /\
      total + lo * Z.of_nat n <= total' <= total + hi * Z.of_nat n.
Proof.
  intros Hfn. induction n as [|n IH]; intros count total w.
  - exists total, w. cbn [average_loop]. unfold ret.
    rewrite Z.add_0_r. split; [reflexivity|lia].
  - destruct (Hfn w) as (v & w1 & Ev & Hv).
    destruct (IH (count + 1) (total + v) w1) as (total' & w' & E & Ht).
    exists total', w'. split.
    + cbn [average_loop]. unfold bind. rewrite Ev, E.
      replace (count + 1 + Z.of_nat n) with (count + Z.of_nat (S n)) by lia.
      reflexivity.
    + rewrite Nat2Z.inj_succ. lia.
Qed.

Lemma make_averaged_between_aux {A : Type} (fn : A -> M W Z)
  (num_samples : Z) (args : A) (lo hi : Z) (w : W) :
  (forall w0, exists v w', fn args w0 = (Ok v, w') /\ lo <= v <= hi) ->
  1 <= num_samples ->
  exists a w',
    make_averaged fn num_samples args w = (Ok a, w') /\
    (inject_Z lo <= a <= inject_Z hi)%Q.
Proof.
  intros Hfn Hn. unfold make_averaged, bind.
  destruct (average_loop_between fn args lo hi Hfn (Z.to_nat num_samples)
              0 0 w) as (total & w' & E & Ht).
  rewrite E. rewrite Z2Nat.id in * by lia. rewrite Z.add_0_l in *.
  assert (E0 : (num_samples =? 0) = false) by (apply Z.eqb_neq; lia).
  rewrite E0. unfold ret. eexists; eexists; split; [reflexivity|].
  assert (Hpos : (0 < inject_Z num_samples)%Q)
    by (rewrite <- (Zlt_Qlt 0); lia).
  split.
  - apply Qle_shift_div_l; [exact Hpos|].
    rewrite <- inject_Z_mult, <- Zle_Qle. lia.
  - apply Qle_shift_div_r; [exact Hpos|].
    rewrite <- inject_Z_mult, <- Zle_Qle. lia.
Qed.

(** X12.  When every call of the averaged function returns a value
    between [lo] and [hi], two integers of absolute value at most 2^53
    (so that both are doubles), the average over any positive number of
    samples lies between [lo] and [hi]. *)
Theorem make_averaged_between {A : Type} (fn : A -> M W Z)
  (num_samples : Z) (args : A) (lo hi : Z) (w : W) :
  - 2 ^ 53 <= lo -> hi <= 2 ^ 53 ->
  (forall w0, exists v w', fn args w0 = (Ok v, w') /\ lo <= v <= hi) ->
  1 <= num_samples ->
  exists a w',
    make_averaged fn num_samples args w = (Ok a, w') /\
    (inject_Z lo <= a <= inject_Z hi)%Q.
Proof. intros _ _. apply make_averaged_between_aux. Qed.

Lemma average_loop_counted (d : dice W) (c0 : Z) (n : nat) :
  1 <= c0 ->
  forall (count total : Z) (w : W) (c : nat),
    exists r w' c',
      average_loop (fun a : pyval * dice (W * nat) => roll_dice (fst a) (snd a))
        (PInt c0, counted d) n count total (w, c)
      = (Ok r, (w', c')) /\
      Z.of_nat c' = Z.of_nat c + Z.of_nat n * c0.
Proof.
  intros Hc. induction n as [|n IH]; intros count total w c.
  - exists (count, total), w, c. cbn [average_loop]. unfold ret.
    split; [reflexivity|lia].
  - cbn [average_loop]. unfold bind at 1. cbn [fst snd].
    rewrite roll_dice_draws by assumption. rewrite draws_counted.
    cbn [fst snd].
    set (v := if existsb _ _ then 1 else _).
    destruct (IH (count + 1) (total + v) (snd (draws d (Z.to_nat c0) w))
                (c + Z.to_nat c0)%nat) as (r & w' & c' & E & Hc').
    exists r, w', c'. split; [exact E|].
    rewrite Hc', Nat2Z.inj_add, Z2Nat.id, Nat2Z.inj_succ by lia. lia.
Qed.

Lemma counts_from_sum_nonneg (n : nat) :
  forall z, 0 <= z -> 0 <= sum_list (counts_from n z).
Proof.
  induction n as [|n IH]; intros z Hz; cbn [counts_from].
  - simpl. lia.
  - change (sum_list (z :: ?l)) with (z + sum_list l).
    specialize (IH (z + 1)). lia.
Qed.

Lemma average_table_counted (d : dice W) (n : nat) :
  forall (count : Z) (w : W) (c : nat),
    1 <= count ->
    exists table w' c',
      average_table (counted d) n count (w, c) = (Ok table, (w', c')) /\
      Z.of_nat c' = Z.of_nat c + 1000 * sum_list (counts_from n count).
Proof.
  induction n as [|n IH]; intros count w c Hc.
  - exists [], w, c. cbn. unfold ret. split; [reflexivity|lia].
  - cbn [average_table]. unfold bind at 1.
    unfold roll_average, make_averaged. unfold bind at 1.
    destruct (average_loop_counted d count (Z.to_nat 1000) Hc 0 0 w c)
      as ([cnt total] & w1 & c1 & E & Hc1).
    rewrite E.
    assert (Hcnt : cnt = 1000).
    { destruct (average_loop_roll (counted d) count (Z.to_nat 1000) Hc 0 0
                  (w, c)) as (t' & w2 & E' & _).
      rewrite E in E'. now injection E' as -> _ _. }
    subst cnt. change (1000 =? 0) with false. cbv iota. unfold ret at 1.
    destruct (IH (count + 1) w1 c1) as (rest & w' & c' & Er & Hc'); [lia|].
    unfold bind. rewrite Er. unfold ret.
    exists ((count, inject_Z total / inject_Z 1000)%Q :: rest), w', c'.
    split; [reflexivity|].
    cbn [counts_from].
    change (sum_list (count :: counts_from n (count + 1)))
      with (count + sum_list (counts_from n (count + 1))).
    change (Z.of_nat (Z.to_nat 1000)) with 1000 in Hc1. lia.
Qed.

End Averaging.

Section ExperimentRuns.

Context {W : Type}.
Variable throw : die -> dice W.

(** X13.  For a dice whose outcomes, of either sign, are at most [k] in
    absolute value, with [10 * k < 2^1023] so that no average is beyond
    the range of a double, [max_scoring_num_rolls] succeeds, prints one
    row for each of the counts 1 to 10, returns a count in 1..10, and
    calls the dice exactly 55000 times: 1000 samples of 1 + 2 + ... + 10
    rolls. *)
Theorem max_scoring_num_rolls_draws (d : dice W) (k : Z) (w : W)
  (calls : nat) :
  (forall w0, Z.abs (fst (d w0)) <= k) -> 10 * k < 2 ^ 1023 ->
  exists n table w' calls',
    max_scoring_num_rolls (counted d) (w, calls)
    = (Ok (n, table), (w', calls')) /\
    Z.of_nat calls' = Z.of_nat calls + 55000 /\
    1 <= n <= 10 /\
    map fst table = [1; 2; 3; 4; 5; 6; 7; 8; 9; 10].
Proof.
  intros _ _.
  destruct (average_table_counted d 10 1 w calls)
    as (table & w' & calls' & Et & Hcalls); [lia|].
  destruct (average_table_ok (counted d) 10 1 (w, calls))
    as (table2 & w2 & Et2 & Hfst & _); [lia|].
  rewrite Et in Et2. injection Et2 as E2 _. subst table2.
  destruct (max_scoring_num_rolls_range (counted d) (w, calls))
    as (n & table3 & w3 & En & Hn).
  pose proof (max_scoring_loop_pick (counted d) 10 1 0%Q 1 [] _ _ _ Et) as Ep.
  unfold max_scoring_num_rolls in En.
  change (Z.to_nat (10 - 1 + 1)) with 10%nat in En.
  rewrite Ep in En. injection En as E1 E2 E3. subst n table3 w3.
  exists (pick table 0%Q 1), table, w', calls'. split; [|split; [|split]].
  - unfold max_scoring_num_rolls.
    change (Z.to_nat (10 - 1 + 1)) with 10%nat. exact Ep.
  - change (sum_list (counts_from 10 1)) with 55 in Hcalls. lia.
  - exact Hn.
  - exact Hfst.
Qed.

(** X14.  For strategies with counts in [0, 10] and dice with outcomes of
    at least 1, [average_win_rate] returns a rate between 0 and 1. *)
Theorem average_win_rate_unit_interval (fuel : nat)
  (strategy0 baseline : strategy) (w : W) :
  positive_dice throw ->
  rolls_in_range strategy0 -> rolls_in_range baseline ->
  (200 <= fuel)%nat ->
  exists rate w',
    average_win_rate throw fuel strategy0 baseline w = (Ok rate, w') /\
    (0 <= rate <= 1)%Q.
Proof.
  intros Hd Hs Hb Hf.
  assert (Hwin : forall (p : strategy * strategy),
             rolls_in_range (fst p) -> rolls_in_range (snd p) ->
             forall w0, exists v w',
               winner throw fuel (fst p) (snd p) w0 = (Ok v, w')
               /\ 0 <= v <= 1).
  { intros p H0 H1 w0.
    destruct (winner_outcome throw (fst p) (snd p) w0 Hd H0 H1)
      as (v & s0 & s1 & w' & Hrun & Hv).
    exists v, w'. split; [apply (Hrun fuel Hf)|lia]. }
  unfold average_win_rate.
  destruct (make_averaged_between_aux
              (fun a : strategy * strategy => winner throw fuel (fst a) (snd a))
              1000 (strategy0, baseline) 0 1 w
              (Hwin (strategy0, baseline) Hs Hb))
    as (lost & w1 & E1 & Hl); [lia|].
  destruct (make_averaged_between_aux
              (fun a : strategy * strategy => winner throw fuel (fst a) (snd a))
              1000 (baseline, strategy0) 0 1 w1
              (Hwin (baseline, strategy0) Hb Hs))
    as (won & w2 & E2 & Hw); [lia|].
  unfold bind. rewrite E1, E2. unfold ret.
  eexists; eexists; split; [reflexivity|].
  change (inject_Z 0) with 0%Q in *. change (inject_Z 1) with 1%Q in *.
  split.
  - apply Qle_shift_div_l; [reflexivity|]. lra.
  - apply Qle_shift_div_r; [reflexivity|]. lra.
Qed.

Lemma draws_constant (d : dice W) (v : Z) (n : nat) :
  (forall w0, fst (d w0) = v) ->
  forall w, fst (draws d n w) = repeat v n.
Proof.
  intros Hd. induction n as [|n IH]; intros w; simpl; [reflexivity|].
  pose proof (Hd w) as H1. destruct (d w) as [y w1]. specialize (IH w1).
  destruct (draws d n w1) as [xs w2]; simpl in *. now subst.
Qed.

Lemma sum_list_repeat (v : Z) (n : nat) :
  sum_list (repeat v n) = Z.of_nat n * v.
Proof.
  induction n as [|n IH]; [reflexivity|].
  change (sum_list (repeat v (S n))) with (v + sum_list (repeat v n)).
  rewrite IH, Nat2Z.inj_succ. lia.
Qed.

Lemma existsb_repeat (v : Z) (n : nat) :
  existsb (Z.eqb 1) (repeat v (S n)) = (1 =? v).
Proof.
  induction n as [|n IH]; cbn [repeat existsb] in *.
  - apply orb_false_r.
  - rewrite IH. apply orb_diag.
Qed.

Lemma roll_dice_constant (d : dice W) (v c : Z) (w : W) :
  (forall w0, fst (d w0) = v) -> 1 <= c ->
  exists w', roll_dice (PInt c) d w = (Ok (constant_roll v c), w').
Proof.
  intros Hd Hc. rewrite roll_dice_draws by assumption.
  rewrite (draws_constant d v (Z.to_nat c) Hd).
  destruct (Z.to_nat c) as [|n] eqn:En; [lia|].
  rewrite existsb_repeat, sum_list_repeat, <- En, Z2Nat.id by lia.
  eexists. reflexivity.
Qed.

Lemma average_table_rows (d : dice W) (P : Z -> Q -> Prop) (n : nat) :
  (forall c w, 1 <= c ->
     forall a w', roll_average (PInt c, d) w = (Ok a, w') -> P c a) ->
  forall count w table w',
    1 <= count ->
    average_table d n count w = (Ok table, w') ->
    forall c a, In (c, a) table -> P c a.
Proof.
  intros HP. induction n as [|n IH]; intros count w table w' Hc.
  - cbn. unfold ret. intros [= <- _] c a [].
  - cbn [average_table]. unfold bind at 1.
    destruct (roll_average (PInt count, d) w) as [[a0|e|] w1] eqn:E0;
      try discriminate.
    unfold bind.
    destruct (average_table d n (count + 1) w1) as [[rest|e|] w2] eqn:Er;
      try discriminate.
    unfold ret. intros [= <- _] c a [[= <- <-]|Hin].
    + apply (HP count w Hc a0 w1 E0).
    + apply (IH (count + 1) w1 rest w2); [lia|exact Er|exact Hin].
Qed.

(** X22.  For a dice that always shows the same outcome [v >= 1], with
    [10 * v < 2^1023] so that no average is beyond the range of a double,
    [max_scoring_num_rolls] returns 10: with [v >= 2] the averages do not
    decrease with the count, and with [v = 1] all averages are equal; in
    both cases the last count is kept. *)
Theorem max_scoring_num_rolls_constant_dice (d : dice W) (v : Z) (w : W) :
  1 <= v -> 10 * v < 2 ^ 1023 -> (forall w0, fst (d w0) = v) ->
  exists table w', max_scoring_num_rolls d w = (Ok (10, table), w').
Proof.
  intros Hv _ Hd.
  destruct (average_table_ok d 10 1 w) as (table & w' & Et & Hfst & _);
    [lia|].
  exists table, w'. unfold max_scoring_num_rolls.
  change (Z.to_nat (10 - 1 + 1)) with 10%nat.
  rewrite (max_scoring_loop_pick d 10 1 0%Q 1 [] w w' table Et).
  cbn [app]. repeat f_equal.
  assert (Hrows : forall c a, In (c, a) table ->
                    (inject_Z (constant_roll v c) <= a
                     <= inject_Z (constant_roll v c))%Q).
  { apply (average_table_rows d
             (fun c a => (inject_Z (constant_roll v c) <= a
                          <= inject_Z (constant_roll v c))%Q)
             10) with (count := 1) (w := w) (w' := w'); [|lia|exact Et].
    intros c w0 Hc a w1 Ea.
    destruct (make_averaged_between_aux
                (fun a : pyval * dice W => roll_dice (fst a) (snd a))
                1000 (PInt c, d) (constant_roll v c) (constant_roll v c) w0)
      as (a' & w1' & Ea' & Ha'); [|lia|].
    - intros w2. destruct (roll_dice_constant d v c w2 Hd Hc) as [w3 E3].
      exists (constant_roll v c), w3. cbn [fst snd]. split; [exact E3|lia].
    - unfold roll_average in Ea. rewrite Ea in Ea'.
      injection Ea' as <- _. exact Ha'. }
  assert (Hmono : forall c, 1 <= c <= 10 ->
                    1 <= constant_roll v c <= constant_roll v 10).
  { intros c Hc. unfold constant_roll. destruct (1 =? v); nia. }
  assert (Hcounts : forall c a, In (c, a) table -> 1 <= c <= 10).
  { intros c a Hin. apply (in_map fst) in Hin. rewrite Hfst in Hin.
    cbn [fst] in Hin. simpl in Hin.
    repeat (destruct Hin as [<-|Hin]; [lia|]). destruct Hin. }
  destruct (pick_spec table 0%Q 1)
    as [[_ Hall]|(pre & an & post & E & _ & _ & Hpost)].
  - exfalso. destruct table as [|[c a] rest]; [discriminate|].
    assert (Hin : In (c, a) ((c, a) :: rest)) by now left.
    pose proof (Hall c a Hin) as Hneg.
    pose proof (proj1 (Hrows c a Hin)) as Hlow.
    pose proof (Hmono c (Hcounts c a Hin)) as Hc.
    assert (Hq : (1 <= inject_Z (constant_roll v c))%Q)
      by (rewrite <- (Zle_Qle 1); lia).
    lra.
  - remember (pick table 0%Q 1) as n eqn:En. clear En.
    destruct (exists_last (l := (n, an) :: post)) as (front & [c10 a10] & El);
      [discriminate|].
    assert (Hlast : c10 = 10).
    { assert (Hl : last (map fst table) 0 = c10).
      { rewrite E, map_app, El, map_app. cbn [map fst].
        rewrite app_assoc. apply last_last. }
      rewrite Hfst in Hl. cbn in Hl. congruence. }
    subst c10.
    destruct post as [|p post].
    + destruct front as [|f front]; cbn in El.
      * now injection El as -> _.
      * destruct front; discriminate El.
    + exfalso.
      assert (Hin10 : In (10, a10) (p :: post)).
      { assert (Hx : In (10, a10) ((n, an) :: p :: post))
          by (rewrite El; apply in_elt).
        destruct Hx as [Hx|Hx]; [|exact Hx].
        injection Hx as -> ->.
        (* the selected row and the last row are distinct rows *)
        exfalso.
        assert (Hnd : NoDup (map fst table))
          by (rewrite Hfst; repeat constructor; simpl; intuition lia).
        rewrite E, map_app in Hnd. apply NoDup_app_remove_l in Hnd.
        cbn [map fst] in Hnd. inversion Hnd as [|x l Hnin _]; subst.
        apply Hnin.
        assert (Hy : In (10, a10) (p :: post)).
        { destruct (exists_last (l := p :: post)) as (fr & y & Ey);
            [discriminate|].
          rewrite Ey in El.
          change ((10, a10) :: fr ++ [y]) with (((10, a10) :: fr) ++ [y]) in El.
          apply app_inj_tail in El. destruct El as [_ ->].
          rewrite Ey. apply in_elt. }
        apply (in_map fst) in Hy. exact Hy. }
      pose proof (Hpost 10 a10 Hin10) as Hlt.
      assert (Hn : In (n, an) table) by (rewrite E; apply in_elt).
      assert (H10 : In (10, a10) table).
      { rewrite E. apply in_or_app. right. right. exact Hin10. }
      pose proof (proj2 (Hrows n an Hn)) as Hup.
      pose proof (proj1 (Hrows 10 a10 H10)) as Hlow.
      pose proof (Hmono n (Hcounts n an Hn)) as Hc.
      assert (Hq : (inject_Z (constant_roll v n)
                    <= inject_Z (constant_roll v 10))%Q)
        by (rewrite <- Zle_Qle; lia).
      lra.
Qed.

Lemma roll_average_between (d : dice W) (k c : Z) (w w' : W) (a : Q) :
  (forall w0, 1 <= fst (d w0) <= k) -> 1 <= c ->
  roll_average (PInt c, d) w = (Ok a, w') ->
  (inject_Z 1 <= a <= inject_Z (k * c))%Q.
Proof.
  intros Hd Hc Ea.
  destruct (make_averaged_between_aux
              (fun a : pyval * dice W => roll_dice (fst a) (snd a))
              1000 (PInt c, d) 1 (k * c) w)
    as (a' & w1 & Ea' & Ha'); [|lia|].
  - intros w2. cbn [fst snd].
    destruct (roll_dice_between d c k w2 Hd Hc) as (v & w3 & E3 & Hv).
    exists v, w3. split; [exact E3|].
    assert (1 <= k) by (specialize (Hd w2); lia). nia.
  - unfold roll_average in Ea. rewrite Ea in Ea'.
    injection Ea' as <- _. exact Ha'.
Qed.

(** C5, as amended.  For every dice returning outcomes between 1 and [k],
    with [10000 * k < 2^52] so that each total of 1000 samples is below
    2^52, [max_scoring_num_rolls] returns a count in 1..10 whose average,
    in the table of the ten averages it prints for the counts 1 to 10, is
    the largest; when several counts reach that largest average it returns
    the last (highest) of them.  Every average lies between 1 and
    [10 * k]. *)
Theorem max_scoring_num_rolls_last_max (d : dice W) (k : Z) (w : W) :
  (forall w0, 1 <= fst (d w0) <= k) -> 10000 * k < 2 ^ 52 ->
  exists n table w',
    max_scoring_num_rolls d w = (Ok (n, table), w') /\
    average_table d 10 1 w = (Ok table, w') /\
    map fst table = [1; 2; 3; 4; 5; 6; 7; 8; 9; 10] /\
    (forall c a, In (c, a) table -> (1 <= a <= inject_Z (10 * k))%Q) /\
    1 <= n <= 10 /\
    last_max_row table n.
Proof.
  intros Hb Hk.
  assert (Hd : forall w0, 1 <= fst (d w0))
    by (intros w0; specialize (Hb w0); lia).
  destruct (average_table_ok d 10 1 w) as (table & w' & Et & Hfst & Hpos);
    [lia|].
  specialize (Hpos Hd).
  exists (pick table 0%Q 1), table, w'.
  assert (Hlast : last_max_row table (pick table 0%Q 1)).
  { destruct (pick_spec table 0%Q 1)
      as [[_ Hall]|(pre & an & post & E & _ & Hpre & Hpost)].
    - exfalso. destruct table as [|[c a] rest]; [discriminate|].
      apply (Qlt_irrefl 0). apply Qlt_trans with a.
      + apply (Hpos c a). now left.
      + apply (Hall c a). now left.
    - exists pre, an, post. auto. }
  assert (Hcounts : forall c a, In (c, a) table -> 1 <= c <= 10).
  { intros c a Hin. apply (in_map fst) in Hin. rewrite Hfst in Hin.
    cbn [fst] in Hin. simpl in Hin.
    repeat (destruct Hin as [<-|Hin]; [lia|]). destruct Hin. }
  split; [|split; [exact Et|split; [exact Hfst|split;
           [|split; [|exact Hlast]]]]].
  - unfold max_scoring_num_rolls.
    change (Z.to_nat (10 - 1 + 1)) with 10%nat.
    now rewrite (max_scoring_loop_pick d 10 1 0%Q 1 [] w w' table Et).
  - intros c a Hin.
    pose proof (Hcounts c a Hin) as Hc.
    assert (Hrow : (inject_Z 1 <= a <= inject_Z (k * c))%Q).
    { apply (average_table_rows d
               (fun c a => (inject_Z 1 <= a <= inject_Z (k * c))%Q) 10)
        with (count := 1) (w := w) (table := table) (w' := w');
        [|lia|exact Et|exact Hin].
      intros c0 w0 Hc0 a0 w1 Ea.
      apply (roll_average_between d k c0 w0 w1 a0 Hb Hc0 Ea). }
    assert (1 <= k) by (specialize (Hb w); lia).
    assert (Hq : (inject_Z (k * c) <= inject_Z (10 * k))%Q)
      by (rewrite <- Zle_Qle; nia).
    change (inject_Z 1) with 1%Q in Hrow. split; [apply Hrow|].
    apply Qle_trans with (inject_Z (k * c)); [apply Hrow|exact Hq].
  - remember (pick table 0%Q 1) as n eqn:En. clear En.
    destruct Hlast as (pre & an & post & E & _).
    assert (Hin : In n (map fst table)).
    { rewrite E, map_app, in_app_iff. right. now left. }
    rewrite Hfst in Hin. simpl in Hin.
    repeat (destruct Hin as [<-|Hin]; [lia|]). destruct Hin.
Qed.

End ExperimentRuns.

(** ** What the strategies choose *)

Section StrategyChoices.

Context {W : Type}.
Variable throw : die -> dice W.

(** X15.  For an opponent score in [0, 100), [bacon_strategy] takes free
    bacon exactly when the opponent's score is 70 or more or ends in a
    digit of 7 or more, whatever the own score; free bacon is then worth
    at least 8 points.  Otherwise it rolls 5 dice. *)
Theorem bacon_strategy_choice (score opponent_score : Z) :
  0 <= opponent_score < 100 ->
  (bacon_strategy score opponent_score = 0
   /\ (70 <= opponent_score \/ 7 <= opponent_score mod 10)
   /\ forall (d : dice W) (w : W),
        exists v,
          take_turn (PInt 0) opponent_score d w = (Ok v, w) /\ 8 <= v)
  \/
  (bacon_strategy score opponent_score = 5
   /\ opponent_score < 70 /\ opponent_score mod 10 < 7).
Proof.
  intros Ho. unfold bacon_strategy, BACON_MARGIN, BASELINE_NUM_ROLLS.
  destruct (Z.leb_spec 8
              (Z.max (opponent_score / 10) (opponent_score mod 10) + 1))
    as [H|H].
  - left. split; [reflexivity|]. split.
    + Z.div_mod_to_equations. lia.
    + intros d w. rewrite take_turn_accepts by lia.
      eexists; split; [reflexivity|lia].
  - right. split; [reflexivity|]. Z.div_mod_to_equations. lia.
Qed.

(** X16.  [swap_strategy] takes free bacon whenever that makes the
    opponent's score exactly double the own score; and whenever it takes
    free bacon, the turn does not end in a harmful swap: the mover keeps
    at least the points of the free bacon, and gets the opponent's score
    when the swap is beneficial. *)
Theorem swap_strategy_no_harmful_swap (score opponent_score : Z) (w : W) :
  0 <= score -> 0 <= opponent_score < 100 ->
  let scored :=
    score + (1 + Z.max (opponent_score / 10) (opponent_score mod 10)) in
  (opponent_score = 2 * scored -> swap_strategy score opponent_score = 0)
  /\
  (swap_strategy score opponent_score = 0 ->
   scored <> 2 * opponent_score /\
   play_turn throw (pure_strategy swap_strategy) score opponent_score w
   = (Ok (if opponent_score =? 2 * scored then (opponent_score, scored)
          else (scored, opponent_score)), w)).
Proof.
  intros Hs Ho scored.
  pose proof (free_bacon_digits opponent_score Ho) as Hm.
  assert (Hsw : forall b : bool,
             swap_strategy score opponent_score
             = if opponent_score - scored =? scored then 0
               else if scored - opponent_score =? opponent_score
                    then BASELINE_NUM_ROLLS
                    else bacon_strategy score opponent_score)
    by reflexivity.
  specialize (Hsw true). split.
  - intros E. rewrite Hsw.
    assert (E1 : (opponent_score - scored =? scored) = true)
      by (apply Z.eqb_eq; lia).
    now rewrite E1.
  - intros E0.
    assert (Hnh : scored <> 2 * opponent_score).
    { rewrite Hsw in E0. unfold BASELINE_NUM_ROLLS in E0.
      destruct (Z.eqb_spec (opponent_score - scored) scored) as [E1|E1].
      - subst scored. lia.
      - destruct (Z.eqb_spec (scored - opponent_score) opponent_score);
          [discriminate|lia]. }
    split; [exact Hnh|].
    unfold play_turn, pure_strategy, bind. unfold ret at 1. rewrite E0.
    rewrite take_turn_accepts by lia. change (0 =? 0) with true. cbv iota.
    fold scored. rewrite swap_test_doubled.
    assert (E2 : (scored =? 2 * opponent_score) = false)
      by (apply Z.eqb_neq; exact Hnh).
    rewrite E2, orb_false_r. now destruct (opponent_score =? 2 * scored).
Qed.

(** X17.  Every call of [final_strategy] draws exactly five dice, all
    six-sided, whatever the scores and even when its decision raises; the
    value it returns is its decision. *)
Theorem final_strategy_draws_five (g : globals) (score opponent_score : Z)
  (w : W) (calls : nat) :
  final_strategy (counted_throw throw) g score opponent_score (w, calls)
  = (final_decision g score opponent_score,
     (snd (draws (throw six_sided) 5 w), (calls + 5)%nat)).
Proof.
  rewrite final_strategy_decision. unfold counted_throw.
  now rewrite draws_counted.
Qed.

Lemma double_test (a b : Z) :
  0 < b -> (a / b =? 2) && (a mod b =? 0) = (a =? 2 * b).
Proof.
  intros Hb. destruct (Z.eqb_spec a (2 * b)) as [->|Hne].
  - rewrite Z.div_mul, Z.mod_mul by lia. reflexivity.
  - destruct (Z.eqb_spec (a / b) 2) as [E1|E1]; [|reflexivity].
    destruct (Z.eqb_spec (a mod b) 0) as [E2|E2]; [|reflexivity].
    exfalso. apply Hne. pose proof (Z.div_mod a b). lia.
Qed.

Lemma beneficial_test (g : globals) (score opponent_score : Z) :
  0 <= score -> 0 <= opponent_score < 100 ->
  let roll0 :=
    score + (1 + Z.max (opponent_score / 10) (opponent_score mod 10)) in
  and_then (and_then (Ok (roll0 <? opponent_score))
                     (eq_int (floordiv opponent_score roll0) 2))
           (eq_int (pymod opponent_score roll0) 0)
  = Ok (opponent_score =? 2 * roll0).
Proof.
  intros Hs Ho roll0.
  pose proof (free_bacon_digits opponent_score Ho) as Hm.
  assert (Hr : 0 < roll0) by (subst roll0; lia).
  rewrite floordiv_ok, pymod_ok by lia. cbn [eq_int].
  rewrite !and_then_ok, <- andb_assoc, double_test by assumption.
  destruct (Z.eqb_spec opponent_score (2 * roll0)) as [E|E].
  - rewrite andb_true_r. apply f_equal, Z.ltb_lt. lia.
  - now rewrite andb_false_r.
Qed.

(** X18.  When free bacon would leave the opponent with exactly double
    the own score, [final_strategy] takes it: it returns 0, on either kind
    of dice. *)
Theorem final_strategy_takes_beneficial_swap (g : globals)
  (score opponent_score : Z) (w : W) :
  0 <= score -> 0 <= opponent_score < 100 ->
  opponent_score
  = 2 * (score + (1 + Z.max (opponent_score / 10) (opponent_score mod 10))) ->
  fst (final_strategy throw g score opponent_score w) = Ok 0.
Proof.
  intros Hs Ho E. rewrite final_strategy_decision. cbn [fst].
  unfold final_decision. cbv zeta.
  rewrite (beneficial_test g score opponent_score Hs Ho).
  apply Z.eqb_eq in E. now rewrite E.
Qed.

(** X19.  On a four-sided turn with valid scores the test of line 328
    ([roll0 > opponent_score and roll0 == 2 and ...]) never succeeds, and
    the decision of [final_strategy] is: 0 when free bacon gives a
    beneficial swap; else [repeated_strategy] when the opponent leads by
    more than double; else 0 when free bacon is worth at least 4; else
    the best count for four-sided dice. *)
Theorem final_decision_four_sided (g : globals) (score opponent_score : Z) :
  0 <= score -> 0 <= opponent_score < 100 ->
  select_dice score opponent_score = four_sided ->
  let bacon := 1 + Z.max (opponent_score / 10) (opponent_score mod 10) in
  ~ (opponent_score < score + bacon /\ score + bacon = 2)
  /\
  final_decision g score opponent_score
  = Ok (if opponent_score =? 2 * (score + bacon) then 0
        else if (score <? opponent_score) && (0 <? opponent_score / 2 - score)
             then repeated_strategy score opponent_score four_sided
                    (four_sided_max g)
             else if 4 <=? bacon then 0
                  else four_sided_max g).
Proof.
  intros Hs Ho E4 bacon.
  assert (Hdead : ~ (opponent_score < score + bacon /\ score + bacon = 2)).
  { subst bacon. unfold select_dice in E4.
    destruct (Z.eqb_spec ((score + opponent_score) mod 7) 0) as [E|E];
      [|discriminate].
    intros [H1 H2]. revert E H1 H2. Z.div_mod_to_equations. lia. }
  split; [exact Hdead|].
  unfold final_decision. cbv zeta.
  rewrite (beneficial_test g score opponent_score Hs Ho).
  rewrite E4. cbn [is_four_sided]. fold bacon.
  rewrite and_then_ok.
  replace ((opponent_score <? score + bacon) && (score + bacon =? 2))
    with false.
  2:{ symmetry. apply andb_false_iff.
      destruct (Z.ltb_spec opponent_score (score + bacon)) as [H|H];
        [right|now left].
      apply Z.eqb_neq. intros E2. apply Hdead. auto. }
  cbn [and_then if_then].
  replace (Z.max (opponent_score / 10) (opponent_score mod 10) + 1)
    with bacon by (subst bacon; lia).
  destruct (opponent_score =? 2 * (score + bacon)); [reflexivity|].
  destruct ((score <? opponent_score) && (0 <? opponent_score / 2 - score));
    [reflexivity|].
  now destruct (4 <=? bacon).
Qed.

Lemma harmful_test (score opponent_score : Z) :
  0 <= score -> 0 <= opponent_score < 100 ->
  let roll0 :=
    score + (1 + Z.max (opponent_score / 10) (opponent_score mod 10)) in
  and_then (and_then (Ok (negb (opponent_score =? 0)))
                     (eq_int (floordiv roll0 opponent_score) 2))
           (eq_int (pymod roll0 opponent_score) 0)
  = Ok (roll0 =? 2 * opponent_score).
Proof.
  intros Hs Ho roll0.
  pose proof (free_bacon_digits opponent_score Ho) as Hm.
  destruct (Z.eqb_spec opponent_score 0) as [E|E].
  - cbn [negb and_then]. symmetry. apply f_equal, Z.eqb_neq.
    subst roll0. lia.
  - rewrite floordiv_ok, pymod_ok by assumption. cbn [eq_int negb].
    rewrite !and_then_ok. cbn [andb]. now rewrite double_test by lia.
Qed.

Ltac case_comparison :=
  match goal with
  | |- context [?a <? ?b] => destruct (Z.ltb_spec a b)
  | |- context [?a <=? ?b] => destruct (Z.leb_spec a b)
  | |- context [?a =? ?b] => destruct (Z.eqb_spec a b)
  end; cbn [andb negb if_then].

(** X20.  During a game (both scores below 100) and on a six-sided turn,
    [final_strategy] never takes free bacon into a harmful swap: whenever
    it returns 0, the own score after free bacon is not double the
    opponent's. *)
Theorem final_strategy_six_sided_no_harmful_bacon (g : globals)
  (score opponent_score : Z) :
  1 <= six_sided_max g <= 10 ->
  0 <= score < 100 -> 0 <= opponent_score < 100 ->
  select_dice score opponent_score = six_sided ->
  final_decision g score opponent_score = Ok 0 ->
  score + (1 + Z.max (opponent_score / 10) (opponent_score mod 10))
  <> 2 * opponent_score.
Proof.
  intros H6 Hs Ho E6. unfold final_decision. cbv zeta.
  rewrite (beneficial_test g score opponent_score) by lia.
  rewrite (harmful_test score opponent_score) by lia.
  rewrite E6. cbn [is_four_sided].
  pose proof (repeated_strategy_range score opponent_score (six_sided_max g)
                six_sided H6) as Hrep.
  pose proof (free_bacon_digits opponent_score Ho) as Hm.
  unfold GOAL_SCORE.
  remember (repeated_strategy score opponent_score six_sided
              (six_sided_max g)) as rep eqn:Erep. clear Erep.
  remember (opponent_score / 2) as half eqn:Ehalf. clear Ehalf.
  remember (Z.max (opponent_score / 10) (opponent_score mod 10)) as m eqn:Em.
  clear Em.
  destruct (is_four_sided (select_dice (score + (1 + m)) opponent_score));
    repeat case_comparison; intros E; try discriminate E;
    try (injection E as E); lia.
Qed.

(** On a four-sided turn there is no such guarantee: at 48 to 29 the
    decision is free bacon, worth 10, and 58 is double 29. *)
Example final_strategy_four_sided_harmful_bacon :
  select_dice 48 29 = four_sided
  /\ final_decision (Globals 4 6) 48 29 = Ok 0
  /\ 48 + (1 + Z.max (29 / 10) (29 mod 10)) = 2 * 29.
Proof. repeat split. Qed.

End StrategyChoices.

(** * Runs of the model *)

(** ** The doctests of the source *)

Example select_dice_doctests :
  select_dice 4 24 = four_sided /\ select_dice 16 64 = six_sided
  /\ select_dice 0 0 = four_sided.
Proof. repeat split. Qed.

Example other_doctests : other 0 = 1 /\ other 1 = 0.
Proof. split; reflexivity. Qed.

Example always_roll_doctests :
  always_roll 5 0 0 = 5 /\ always_roll 5 99 99 = 5.
Proof. split; reflexivity. Qed.

Example bacon_strategy_doctests :
  bacon_strategy 0 0 = 5 /\ bacon_strategy 70 50 = 5
  /\ bacon_strategy 50 70 = 0.
Proof. repeat split. Qed.

Example swap_strategy_doctests :
  swap_strategy 23 60 = 0 /\ swap_strategy 27 18 = 5
  /\ swap_strategy 50 80 = 0 /\ swap_strategy 12 12 = 5.
Proof. repeat split. Qed.

Example pig_out_example :
  roll_dice (PInt 3) (make_test_dice [3; 1; 5]) 0 = (Ok 1, 3).
Proof. reflexivity. Qed.

Example make_averaged_doctest :
  exists a w',
    make_averaged (fun a : pyval * dice Z => roll_dice (fst a) (snd a)) 1000
      (PInt 2, make_test_dice [3; 1; 5; 6]) 0 = (Ok a, w')
    /\ (a == 6)%Q.
Proof. eexists; eexists; split; [vm_compute; reflexivity|reflexivity]. Qed.

Example max_scoring_num_rolls_doctest :
  exists table w',
    max_scoring_num_rolls (make_test_dice [3]) 0 = (Ok (10, table), w').
Proof. eexists; eexists; vm_compute; reflexivity. Qed.

(** A bound too small for the game leaves the loop unfinished. *)
Example play_out_of_fuel :
  fst (play (test_throw [3; 4]) 5 (pure_strategy (always_roll 5))
         (pure_strategy (always_roll 4)) GOAL_SCORE 0) = OutOfFuel.
Proof. reflexivity. Qed.

(** Outside the valid scores the decision of [final_strategy] can divide
    by zero: with [score = -6] and [opponent_score = 5], [roll0] is 0. *)
Example final_decision_zero_division :
  final_decision (Globals 4 6) (-6) 5 = Raise ZeroDivisionError.
Proof. reflexivity. Qed.

(** ** Test dice and strategies meet the assumptions *)

Lemma make_test_dice_positive (outcomes : list Z) :
  Forall (fun x => 1 <= x) outcomes ->
  forall w, 1 <= fst (make_test_dice outcomes w).
Proof.
  intros H w. unfold make_test_dice. cbn [fst].
  destruct (nth_in_or_default
              (Z.to_nat (w mod Z.of_nat (List.length outcomes))) outcomes 1)
    as [Hin| ->]; [|lia].
  rewrite Forall_forall in H. now apply H.
Qed.

Lemma test_throw_positive (outcomes : list Z) :
  Forall (fun x => 1 <= x) outcomes -> positive_dice (test_throw outcomes).
Proof. intros H k w. now apply make_test_dice_positive. Qed.

Lemma always_roll_in_range {W : Type} (n : Z) :
  0 <= n <= 10 -> rolls_in_range (W := W) (pure_strategy (always_roll n)).
Proof.
  intros Hn score opp w _ _. exists n, w. split; [reflexivity|exact Hn].
Qed.

Lemma three_four_positive : Forall (fun x => 1 <= x) [3; 4].
Proof. repeat constructor; lia. Qed.

Lemma three_positive : Forall (fun x => 1 <= x) [3].
Proof. repeat constructor; lia. Qed.

(** ** Instances of the theorems *)

Lemma play_final_scores_witness :
  exists score0 score1 w',
    (forall fuel, (200 <= fuel)%nat ->
       play (test_throw [3; 4]) fuel (pure_strategy (always_roll 5))
         (pure_strategy (always_roll 4)) GOAL_SCORE 0
       = (Ok (score0, score1), w')) /\
    (GOAL_SCORE <= score0 \/ GOAL_SCORE <= score1) /\
    (forall fuel, (200 <= fuel)%nat ->
       play_by_player (test_throw [3; 4]) fuel (pure_strategy (always_roll 5))
         (pure_strategy (always_roll 4)) 0 0 0 GOAL_SCORE 0
       = (Ok (score0, score1), w')).
Proof.
  apply (play_final_scores (test_throw [3; 4])
           (pure_strategy (always_roll 5)) (pure_strategy (always_roll 4)) 0).
  - apply test_throw_positive, three_four_positive.
  - apply always_roll_in_range. lia.
  - apply always_roll_in_range. lia.
Defined.

Lemma play_turn_swaps_once_witness :
  play_turn (test_throw [2]) (pure_strategy (always_roll 1)) 0 4 0
  = (Ok (4, 2), 1)
  /\ exists num_dice gained w1,
       pure_strategy (always_roll 1) 0 4 0 = (Ok num_dice, w1) /\
       take_turn (PInt num_dice) 4 (test_throw [2] (select_dice 0 4)) w1
       = (Ok gained, 1) /\
       (doubled (0 + gained) 4 ->
          (4, 2) = (4, 0 + gained) /\
          (0 + gained <> 4 -> (4, 2) <> (0 + gained, 4))) /\
       (~ doubled (0 + gained) 4 -> (4, 2) = (0 + gained, 4)).
Proof.
  split; [reflexivity|].
  exact (play_turn_swaps_once (test_throw [2])
           (pure_strategy (always_roll 1)) 0 4 0 1 (4, 2) eq_refl).
Defined.

Lemma roll_dice_calls_and_value_witness :
  1 <= 3 /\
  roll_dice (PInt 3) (counted (make_test_dice [3; 1; 5])) (0, 0%nat)
  = (Ok 1, (3, 3%nat)).
Proof.
  split; [lia|].
  exact (proj2 (roll_dice_calls_and_value (make_test_dice [3; 1; 5]) 3 0 0%nat
                  ltac:(lia))).
Defined.

Lemma take_turn_free_bacon_witness :
  0 <= 24 < 100 /\
  take_turn (PInt 0) 24 (counted (make_test_dice [3])) (0, 0%nat)
  = (Ok 5, (0, 0%nat)).
Proof.
  split; [lia|].
  exact (proj1 (take_turn_free_bacon (make_test_dice [3]) 24 0 0%nat
                  ltac:(lia))).
Defined.

Lemma max_scoring_num_rolls_last_max_witness :
  exists n table w',
    max_scoring_num_rolls (make_test_dice [3]) 0 = (Ok (n, table), w') /\
    average_table (make_test_dice [3]) 10 1 0 = (Ok table, w') /\
    map fst table = [1; 2; 3; 4; 5; 6; 7; 8; 9; 10] /\
    (forall c a, In (c, a) table -> (1 <= a <= inject_Z (10 * 3))%Q) /\
    1 <= n <= 10 /\
    last_max_row table n.
Proof.
  apply (max_scoring_num_rolls_last_max (make_test_dice [3]) 3 0).
  - intros w0. unfold make_test_dice. cbn [fst List.length].
    change (Z.of_nat 1) with 1. rewrite Z.mod_1_r. cbn. lia.
  - reflexivity.
Defined.

Lemma play_terminates_witness :
  exists r w',
    forall fuel, (200 <= fuel)%nat ->
      play (test_throw [3; 4]) fuel (pure_strategy bacon_strategy)
        (pure_strategy swap_strategy) GOAL_SCORE 0 = (Ok r, w').
Proof.
  apply (proj2 (play_terminates (test_throw [3; 4])
                  (test_throw_positive [3; 4] three_four_positive))).
  - apply pure_strategy_in_range, bacon_strategy_range.
  - apply pure_strategy_in_range, swap_strategy_range.
Defined.

Lemma take_turn_contract_witness :
  (exists msg,
     take_turn (PInt 11) 5 (make_test_dice [3]) 0
     = (Raise (AssertionError msg), 0))
  /\ (exists msg,
        take_turn (PBool true) 5 (make_test_dice [3]) 0
        = (Raise (AssertionError msg), 0))
  /\ (exists msg,
        take_turn (PInt 2) 100 (make_test_dice [3]) 0
        = (Raise (AssertionError msg), 0))
  /\ (exists v w', take_turn (PInt 2) 5 (make_test_dice [3]) 0 = (Ok v, w')).
Proof.
  split; [|split; [|split]].
  - apply (proj1 (take_turn_contract (make_test_dice [3]) (PInt 11) 5 0)).
    left. intros n [= <-]. lia.
  - apply (proj1 (take_turn_contract (make_test_dice [3]) (PBool true) 5 0)).
    left. intros n [=].
  - apply (proj1 (take_turn_contract (make_test_dice [3]) (PInt 2) 100 0)).
    right. lia.
  - apply (proj2 (take_turn_contract (make_test_dice [3]) (PInt 2) 5 0)
             2 eq_refl); lia.
Defined.

Lemma library_strategies_in_range_witness :
  rolls_in_range (W := Z) (pure_strategy (always_roll 5))
  /\ exists g w1,
       module_init (test_throw [3]) 0 = (Ok g, w1) /\
       rolls_in_range (final_strategy (test_throw [3]) g).
Proof.
  split.
  - apply (proj1 (library_strategies_in_range (test_throw [3]) 0) 5). lia.
  - apply (proj1 (proj2 (proj2 (proj2
             (library_strategies_in_range (test_throw [3]) 0))))).
Defined.

Lemma final_strategy_no_zero_division_witness :
  (exists n w',
     final_strategy (test_throw [3]) (Globals 4 6) 1 0 0 = (Ok n, w'))
  /\ fst (final_strategy (test_throw [3]) (Globals 4 6) 1 0 0)
     <> Raise ZeroDivisionError.
Proof.
  pose proof (final_strategy_no_zero_division (test_throw [3]) (Globals 4 6)
                1 0 0 ltac:(lia) ltac:(lia)) as H.
  split; [exact (proj1 H)|exact (proj1 (proj2 H))].
Defined.

(** ** Where the code departs from a claim *)

(** C5 as stated fails on a dice that always shows 1: every count pigs
    out, all ten averages are 1, the first row holding the largest average
    is row 1, and [max_scoring_num_rolls] returns 10. *)
Lemma max_scoring_num_rolls_returns_last_tie :
  exists table w',
    max_scoring_num_rolls (make_test_dice [1]) 0 = (Ok (10, table), w')
    /\ first_max_row table 1
    /\ ~ first_max_row table 10.
Proof.
  eexists; eexists; split; [vm_compute; reflexivity|]. split.
  - eexists [], _, _. split; [reflexivity|]. split; [intros c a []|].
    intros c a Hin. simpl in Hin.
    repeat (destruct Hin as [[= <- <-]|Hin]; [apply Qle_refl|]).
    destruct Hin.
  - intros (pre & an & post & E & Hpre & _).
    destruct pre as [|[c a] pre]; [discriminate E|].
    injection E as Ec Ea E. subst c a.
    assert (Hin : In (10, an) (pre ++ (10, an) :: post)) by apply in_elt.
    rewrite <- E in Hin. simpl in Hin.
    apply (Qlt_irrefl an).
    repeat (destruct Hin as [Hin|Hin];
            [try discriminate Hin;
             injection Hin as <-;
             apply (Hpre 1); now left|]).
    destruct Hin.
Qed.

(** C7 as stated fails on a negative opponent score: [take_turn(0, -5)]
    raises nothing and returns [1 + max(-1, 5) = 6]. *)
Lemma take_turn_accepts_negative_score :
  -5 < 0
  /\ take_turn (PInt 0) (-5) (make_test_dice [3]) 0 = (Ok 6, 0)
  /\ is_assertion_error (fst (take_turn (PInt 0) (-5) (make_test_dice [3]) 0))
     = false.
Proof. repeat split. Qed.

(** ** Instances of the further properties *)

Lemma make_test_dice_between (outcomes : list Z) (lo hi : Z) :
  lo <= 1 <= hi ->
  Forall (fun x => lo <= x <= hi) outcomes ->
  forall w, lo <= fst (make_test_dice outcomes w) <= hi.
Proof.
  intros H1 H w. unfold make_test_dice. cbn [fst].
  destruct (nth_in_or_default
              (Z.to_nat (w mod Z.of_nat (List.length outcomes))) outcomes 1)
    as [Hin|E]; [|rewrite E; exact H1].
  rewrite Forall_forall in H. now apply H.
Qed.

Lemma three_four_between : Forall (fun x => 1 <= x <= 4) [3; 4].
Proof. repeat constructor; lia. Qed.

Lemma roll_dice_rejects_witness :
  roll_dice (PBool true) (make_test_dice [3]) 0
  = (Raise (AssertionError "num_rolls must be an integer."), 0)
  /\ roll_dice (PInt 0) (make_test_dice [3]) 0
     = (Raise (AssertionError "Must roll at least once."), 0).
Proof.
  split.
  - exact (proj1 (roll_dice_rejects (make_test_dice [3]) (PBool true) 0)
             eq_refl).
  - apply (proj2 (roll_dice_rejects (make_test_dice [3]) (PInt 0) 0) 0
             eq_refl). lia.
Defined.

Lemma roll_dice_value_bounds_witness :
  exists v w',
    roll_dice (PInt 2) (make_test_dice [3; 4]) 0 = (Ok v, w') /\
    (v = 1 \/ 2 * 2 <= v <= 4 * 2).
Proof.
  apply (roll_dice_value_bounds (make_test_dice [3; 4]) 2 4 0).
  - apply make_test_dice_between; [lia|apply three_four_between].
  - lia.
Defined.

Lemma take_turn_value_bounds_witness :
  exists v w',
    take_turn (PInt 2) 24 (make_test_dice [3; 4]) 0 = (Ok v, w') /\
    1 <= v <= Z.max 10 (4 * 2) /\
    (2 = 0 -> v <= 10 /\ w' = 0).
Proof.
  apply (take_turn_value_bounds (make_test_dice [3; 4]) 2 4 24 0).
  - apply make_test_dice_between; [lia|apply three_four_between].
  - lia.
  - lia.
Defined.

Lemma take_turn_assertion_order_witness :
  take_turn (PInt (-1)) 150 (make_test_dice [3]) 0
  = (Raise (AssertionError "Cannot roll a negative number of dice."), 0)
  /\ take_turn (PInt 11) 150 (make_test_dice [3]) 0
     = (Raise (AssertionError "Cannot roll more than 10 dice."), 0)
  /\ take_turn (PInt 10) 150 (make_test_dice [3]) 0
     = (Raise (AssertionError "The game should be over."), 0).
Proof.
  split; [|split].
  - apply (proj1 (take_turn_assertion_order (make_test_dice [3]) (-1) 150 0)).
    lia.
  - apply (proj1 (proj2 (take_turn_assertion_order (make_test_dice [3])
                           11 150 0))).
    lia.
  - apply (proj2 (proj2 (take_turn_assertion_order (make_test_dice [3])
                           10 150 0))); lia.
Defined.

Lemma play_single_winner_witness :
  exists score0 score1 w',
    (forall fuel, (200 <= fuel)%nat ->
       play (test_throw [3; 4]) fuel (pure_strategy (always_roll 5))
         (pure_strategy (always_roll 4)) GOAL_SCORE 0
       = (Ok (score0, score1), w')) /\
    ((100 <= score0 /\ 0 <= score1 < 100)
     \/ (100 <= score1 /\ 0 <= score0 < 100)) /\
    score0 <> score1.
Proof.
  apply (play_single_winner (test_throw [3; 4])
           (pure_strategy (always_roll 5)) (pure_strategy (always_roll 4)) 0).
  - apply test_throw_positive, three_four_positive.
  - apply always_roll_in_range. lia.
  - apply always_roll_in_range. lia.
Defined.

Lemma play_scores_bounded_witness :
  0 <= 105 <= 99 + Z.max 10 (10 * 4) /\ 0 <= 70 <= 99 + Z.max 10 (10 * 4).
Proof.
  apply (play_scores_bounded (test_throw [3; 4]) 4 200
           (pure_strategy (always_roll 5)) (pure_strategy (always_roll 4))
           0 50 105 70).
  - intros kd w0. apply make_test_dice_between;
      [lia|apply three_four_between].
  - apply always_roll_in_range. lia.
  - apply always_roll_in_range. lia.
  - reflexivity.
Defined.

Lemma winner_reports_goal_witness :
  exists v score0 score1 w',
    (forall fuel, (200 <= fuel)%nat ->
       play (test_throw [3; 4]) fuel (pure_strategy (always_roll 5))
         (pure_strategy (always_roll 4)) GOAL_SCORE 0
       = (Ok (score0, score1), w') /\
       winner (test_throw [3; 4]) fuel (pure_strategy (always_roll 5))
         (pure_strategy (always_roll 4)) 0 = (Ok v, w')) /\
    ((v = 0 /\ 100 <= score0 /\ score1 < 100)
     \/ (v = 1 /\ 100 <= score1 /\ score0 < 100)).
Proof.
  apply (winner_reports_goal (test_throw [3; 4])
           (pure_strategy (always_roll 5)) (pure_strategy (always_roll 4)) 0).
  - apply test_throw_positive, three_four_positive.
  - apply always_roll_in_range. lia.
  - apply always_roll_in_range. lia.
Defined.

Lemma play_nonpositive_goal_witness :
  play (test_throw [3; 4]) 1 (pure_strategy (always_roll 11))
    (pure_strategy (always_roll 11)) 0 7 = (Ok (0, 0), 7).
Proof.
  apply (play_nonpositive_goal (test_throw [3; 4]) 0
           (pure_strategy (always_roll 11)) (pure_strategy (always_roll 11))
           0 7).
  lia.
Defined.

Lemma play_loop_stops_at_failure_witness :
  exists msg,
    play_loop (test_throw [3; 4]) 1 (pure_strategy (always_roll 5))
      (pure_strategy (always_roll 5)) 1 20 120 200 0
    = (Raise (AssertionError msg), 0).
Proof.
  apply (proj2 (play_loop_stops_at_failure (test_throw [3; 4]) 0
                  (pure_strategy (always_roll 5))
                  (pure_strategy (always_roll 5)) 1 20 120 200 0 0
                  ltac:(lia) ltac:(lia)) 5 eq_refl).
  right. lia.
Defined.

Lemma make_averaged_failures_witness :
  make_averaged (fun a : pyval * dice Z => roll_dice (fst a) (snd a)) 0
    (PInt 2, make_test_dice [3; 4]) 0
  = (Raise ZeroDivisionError, 0).
Proof.
  apply (proj1 (make_averaged_failures
                  (fun a : pyval * dice Z => roll_dice (fst a) (snd a)) 0
                  (PInt 2, make_test_dice [3; 4]) 0)).
  lia.
Defined.

Lemma make_averaged_between_witness :
  exists a w',
    make_averaged (fun a : pyval * dice Z => roll_dice (fst a) (snd a)) 1000
      (PInt 2, make_test_dice [3; 4]) 0 = (Ok a, w') /\
    (inject_Z 1 <= a <= inject_Z 8)%Q.
Proof.
  apply (make_averaged_between
           (fun a : pyval * dice Z => roll_dice (fst a) (snd a)) 1000
           (PInt 2, make_test_dice [3; 4]) 1 8 0).
  - discriminate.
  - discriminate.
  - intros w0.
    destruct (roll_dice_between (make_test_dice [3; 4]) 2 4 w0)
      as (v & w' & E & Hv).
    + apply make_test_dice_between; [lia|apply three_four_between].
    + lia.
    + exists v, w'. split; [exact E|lia].
  - lia.
Defined.

Lemma average_win_rate_unit_interval_witness :
  exists rate w',
    average_win_rate (test_throw [3; 4]) 200 (pure_strategy (always_roll 5))
      (pure_strategy (always_roll 4)) 0 = (Ok rate, w') /\
    (0 <= rate <= 1)%Q.
Proof.
  apply (average_win_rate_unit_interval (test_throw [3; 4]) 200
           (pure_strategy (always_roll 5)) (pure_strategy (always_roll 4)) 0).
  - apply test_throw_positive, three_four_positive.
  - apply always_roll_in_range. lia.
  - apply always_roll_in_range. lia.
  - lia.
Defined.

Lemma bacon_strategy_choice_witness :
  (bacon_strategy 50 70 = 0
   /\ (70 <= 70 \/ 7 <= 70 mod 10)
   /\ forall (d : dice Z) (w : Z),
        exists v, take_turn (PInt 0) 70 d w = (Ok v, w) /\ 8 <= v)
  \/ (bacon_strategy 50 70 = 5 /\ 70 < 70 /\ 70 mod 10 < 7).
Proof.
  apply (bacon_strategy_choice (W := Z) 50 70). lia.
Defined.

Lemma swap_strategy_no_harmful_swap_witness :
  swap_strategy 23 60 = 0
  /\ play_turn (test_throw [3]) (pure_strategy swap_strategy) 23 60 0
     = (Ok (60, 30), 0).
Proof.
  pose proof (swap_strategy_no_harmful_swap (test_throw [3]) 23 60 0
                ltac:(lia) ltac:(lia)) as H.
  split; [reflexivity|]. exact (proj2 (proj2 H eq_refl)).
Defined.

Lemma final_strategy_takes_beneficial_swap_witness :
  fst (final_strategy (test_throw [3]) (Globals 4 6) 23 60 0) = Ok 0.
Proof.
  apply (final_strategy_takes_beneficial_swap (test_throw [3]) (Globals 4 6)
           23 60 0); try lia.
  reflexivity.
Defined.

Lemma final_decision_four_sided_witness :
  final_decision (Globals 4 6) 4 24 = Ok 4.
Proof.
  exact (proj2 (final_decision_four_sided (Globals 4 6) 4 24
                  ltac:(lia) ltac:(lia) eq_refl)).
Defined.

Lemma final_strategy_six_sided_no_harmful_bacon_witness :
  23 + (1 + Z.max (60 / 10) (60 mod 10)) <> 2 * 60.
Proof.
  apply (final_strategy_six_sided_no_harmful_bacon (Globals 4 6) 23 60);
    try (cbn; lia); reflexivity.
Defined.

Lemma play_consults_valid_scores_witness :
  play (test_throw [3; 4]) 200 (pure_strategy (always_roll 5))
    (pure_strategy (always_roll 4)) GOAL_SCORE 0
  = play (test_throw [3; 4]) 200
      (pure_strategy (fun score _ => if score <? 100 then 5 else 11))
      (pure_strategy (fun _ opp => if opp <? 100 then 4 else -1))
      GOAL_SCORE 0.
Proof.
  apply (play_consults_valid_scores (test_throw [3; 4]) 200
           (pure_strategy (always_roll 5)) (pure_strategy (always_roll 4))
           (pure_strategy (fun score _ => if score <? 100 then 5 else 11))
           (pure_strategy (fun _ opp => if opp <? 100 then 4 else -1)) 0).
  - apply test_throw_positive, three_four_positive.
  - apply always_roll_in_range. lia.
  - apply always_roll_in_range. lia.
  - intros score opp w0 Hs Ho. unfold pure_strategy, always_roll.
    destruct (Z.ltb_spec score 100); [reflexivity|lia].
  - intros score opp w0 Hs Ho. unfold pure_strategy, always_roll.
    destruct (Z.ltb_spec opp 100); [reflexivity|lia].
Defined.

Lemma max_scoring_num_rolls_constant_dice_witness :
  exists table w',
    max_scoring_num_rolls (make_test_dice [3]) 0 = (Ok (10, table), w').
Proof.
  apply (max_scoring_num_rolls_constant_dice (make_test_dice [3]) 3 0).
  - lia.
  - reflexivity.
  - intros w0. unfold make_test_dice. cbn [fst List.length].
    change (Z.of_nat 1) with 1. now rewrite Z.mod_1_r.
Defined.

Lemma max_scoring_num_rolls_draws_witness :
  exists n table w' calls',
    max_scoring_num_rolls (counted (make_test_dice [3; 4])) (0, 0%nat)
    = (Ok (n, table), (w', calls')) /\
    Z.of_nat calls' = Z.of_nat 0 + 55000 /\
    1 <= n <= 10 /\
    map fst table = [1; 2; 3; 4; 5; 6; 7; 8; 9; 10].
Proof.
  apply (max_scoring_num_rolls_draws (make_test_dice [3; 4]) 4 0 0%nat).
  - intros w0.
    pose proof (make_test_dice_between [3; 4] 1 4 ltac:(lia)
                  three_four_between w0).
    lia.
  - reflexivity.
Defined.
